(** * parse_compareQUIC.py: a shallow embedding and its verified properties

    The script reads qperf (text) and iperf3 (JSON) result files, groups the
    per-second throughput samples by interface and six-hour time section,
    and reports mean and standard deviation per group as a table and a CSV.

    Conventions of the embedding.
    - A Python [str] is a [string] whose characters are code points below
      256 (the sign U+00B1 is the single character ["177"%char]); among
      these only [0] to [9] are digits for [\d], [int] and [float].
    - A Python [float] is a binary64 primitive [float]; a Python [int] is a
      [Z].
    - A computation that may raise is a [res]; what is printed on stdout is
      a list of [out] records, one per call of [print].
    - The file system, [json.load] and the locale-dependent [strptime] of
      the JSON time stamp are inputs of the model ([filesystem],
      [strptime_gmt]).  Opening, writing and closing the CSV file may each
      raise; [print] on stdout is taken to succeed.
    - The functions of Python's library that the script calls ([float],
      [int], [round], [repr], [sum], [statistics.stdev],
      [datetime.strptime], [os.path.join], [os.path.basename], [str.split],
      [str.replace], string formatting) are written out as CPython 3.11
      computes them. *)

From Stdlib Require Import ZArith QArith Qabs Qround List Bool Ascii String Floats Lia.
From Stdlib Require Import DecimalString.
From stdpp Require Import base option list strings gmap.

Local Open Scope string_scope.
Local Open Scope Z_scope.

(** ** Exceptions and results *)

Inductive exn : Type :=
| OSError | ValueError | KeyError | IndexError
| TypeError | OverflowError | AttributeError | StatisticsError.

Inductive res (A : Type) : Type :=
| Ok (a : A)
| Raise (e : exn).
Arguments Ok {A} a.
Arguments Raise {A} e.

#[global] Instance res_ret : MRet res := fun A a => Ok a.
#[global] Instance res_bind : MBind res := fun A B k m =>
  match m with
  | Ok a => k a
  | Raise e => Raise e
  end.

(** [try: m except (handled): h] *)
Definition try_except {A : Type} (m : res A) (handled : exn -> bool)
    (h : res A) : res A :=
  match m with
  | Ok a => Ok a
  | Raise e => if handled e then h else Raise e
  end.

Fixpoint mapM {A B : Type} (f : A -> res B) (l : list A) : res (list B) :=
  match l with
  | [] => Ok []
  | a :: l' => b ← f a; bs ← mapM f l'; Ok (b :: bs)
  end.

(** ** Numbers *)

(** What a finite or special binary64 value denotes. *)
Inductive xreal : Type :=
| XNan
| XInf (neg : bool)
| XFin (neg : bool) (q : Q).   (* magnitude [q >= 0], sign kept for zeros *)

Definition float_exact (f : float) : xreal :=
  match Prim2SF f with
  | S754_nan => XNan
  | S754_infinity s => XInf s
  | S754_zero s => XFin s 0%Q
  | S754_finite s m e =>
      XFin s (if 0 <=? e then inject_Z (Z.pos m * 2 ^ e)
              else Z.pos m # Z.to_pos (2 ^ (- e)))
  end.

Definition xreal_signed (neg : bool) (q : Q) : Q :=
  if neg then Qopp q else q.

(** The quotient [n/d] ([d > 0]) rounded to the nearest binary64 value,
    ties to even; an infinity when it is too large.  The quotient is cut
    after 66 bits and the rest is kept as a sticky bit. *)
Definition ratio_to_float (n d : Z) : float :=
  if n =? 0 then 0%float
  else
    let p := Z.abs n in
    let k := 66 - (Z.log2 p - Z.log2 d) in
    let '(qt, r) := if 0 <=? k then Z.div_eucl (p * 2 ^ k) d
                    else Z.div_eucl p (d * 2 ^ (- k)) in
    let m := 2 * qt + (if r =? 0 then 0 else 1) in
    SF2Prim (binary_normalize prec emax (if n <? 0 then - m else m)
               (- k - 1) false).

(** [float(z)] for an [int]. *)
Definition float_of_int (z : Z) : res float :=
  let f := ratio_to_float z 1 in
  if is_infinity f then Raise OverflowError else Ok f.

(** [n / d] for two [int]s, [d > 0]. *)
Definition int_truediv (n d : Z) : res float :=
  let f := ratio_to_float n d in
  if is_infinity f then Raise OverflowError else Ok f.

(** ** Decimal text *)

Definition is_digit (c : ascii) : bool :=
  (48 <=? Z.of_nat (nat_of_ascii c)) && (Z.of_nat (nat_of_ascii c) <=? 57).

Definition digit_value (c : ascii) : Z := Z.of_nat (nat_of_ascii c) - 48.

Fixpoint all_digits (s : string) : bool :=
  match s with
  | EmptyString => true
  | String c s' => is_digit c && all_digits s'
  end.

Fixpoint digits_value (acc : Z) (s : string) : Z :=
  match s with
  | EmptyString => acc
  | String c s' => digits_value (10 * acc + digit_value c) s'
  end.

(** The decimal text of a natural number ([z >= 0]). *)
Definition str_int (z : Z) : string :=
  NilZero.string_of_uint (N.to_uint (Z.to_N z)).

Fixpoint zeros (n : nat) : string :=
  match n with
  | O => ""
  | S n' => String "0" (zeros n')
  end.

(** [int(token)] for a token of the class [\d+]: CPython 3.11 refuses more
    than 4300 digits. *)
Definition py_int (token : string) : res Z :=
  if negb (all_digits token) || (String.length token =? 0)%nat
     || (4300 <? String.length token)%nat
  then Raise ValueError
  else Ok (digits_value 0 token).

(** The text before the first dot, and the text after it when there is one. *)
Fixpoint split_dot (s : string) : string * option string :=
  match s with
  | EmptyString => ("", None)
  | String c s' =>
      if Ascii.eqb c "." then ("", Some s')
      else let '(a, b) := split_dot s' in (String c a, b)
  end.

(** [float(token)] for a token of the class [[\d.]+]: digits with at most
    one dot and at least one digit, read as the nearest binary64 value. *)
Definition py_float (token : string) : res float :=
  let '(ip, fp) := split_dot token in
  let fp := default "" fp in
  if all_digits ip && all_digits fp
     && negb ((String.length ip + String.length fp =? 0)%nat)
  then Ok (ratio_to_float (digits_value (digits_value 0 ip) fp)
             (10 ^ Z.of_nat (String.length fp)))
  else Raise ValueError.

(** ** Rounding and printing floats *)

(** [n/d] rounded to the nearest integer, ties to even ([n >= 0], [d > 0]). *)
Definition round_half_even (n d : Z) : Z :=
  let q := n / d in
  match 2 * (n mod d) ?= d with
  | Lt => q
  | Gt => q + 1
  | Eq => if Z.even q then q else q + 1
  end.

(** The hundredths of [m * 2^e], rounded half-even on the exact value. *)
Definition cents (m : positive) (e : Z) : Z :=
  if 0 <=? e then Z.pos m * 2 ^ e * 100
  else round_half_even (Z.pos m * 100) (2 ^ (- e)).

(** [round(x, 2)]: the decimal rounding read back as a float. *)
Definition py_round2 (x : float) : float :=
  match Prim2SF x with
  | S754_finite s m e =>
      let r := ratio_to_float (cents m e) 100 in
      if s then (- r)%float else r
  | _ => x
  end.

(** [v = vn/vd < 10^g] *)
Definition below_pow10 (vn vd g : Z) : bool :=
  if 0 <=? g then vn <? 10 ^ g * vd else vn * 10 ^ (- g) <? vd.

(** The decimal point position of [v = vn/vd > 0]: the [g] with
    [10^(g-1) <= v < 10^g], searched upwards from a lower estimate. *)
Fixpoint decpt_from (fuel : nat) (vn vd g : Z) : Z :=
  match fuel with
  | O => g
  | S fuel' => if below_pow10 vn vd g then g else decpt_from fuel' vn vd (g + 1)
  end.

Definition decpt_of (vn vd : Z) : Z :=
  let b := Z.log2 vn - Z.log2 vd in
  decpt_from 8 vn vd ((b * 30103) / 100000 - 2).

(** [floor (v * 10^k)] *)
Definition scaled_floor (vn vd k : Z) : Z :=
  if 0 <=? k then (vn * 10 ^ k) / vd else vn / (vd * 10 ^ (- k)).

(** The distance from [c * 10^k] to [v = vn/vd]. *)
Definition dist (vn vd c k : Z) : Q :=
  let cq := if 0 <=? k then inject_Z (c * 10 ^ k)
            else c # Z.to_pos (10 ^ (- k)) in
  Qabs (cq - (vn # Z.to_pos vd)).

Definition reads_back (x : float) (c k : Z) : bool :=
  PrimFloat.eqb
    (if 0 <=? k then ratio_to_float (c * 10 ^ k) 1
     else ratio_to_float c (10 ^ (- k))) x.

(** The shortest digits that read back as [x = vn/vd], tried with 1, 2, ...
    significant digits: the pair (digits as a number, count of digits).
    Of two candidates of one length the nearer wins, the even one in a tie. *)
Fixpoint shortest_from (fuel : nat) (x : float) (vn vd decpt : Z) (n : Z)
    : Z * Z :=
  let k := decpt - n in
  let lo := scaled_floor vn vd (- k) in
  let hi := lo + 1 in
  match fuel with
  | O => (lo, n)
  | S fuel' =>
      match reads_back x lo k, reads_back x hi k with
      | true, true =>
          match Qcompare (dist vn vd lo k) (dist vn vd hi k) with
          | Lt => (lo, n)
          | Gt => (hi, n)
          | Eq => if Z.even lo then (lo, n) else (hi, n)
          end
      | true, false => (lo, n)
      | false, true => (hi, n)
      | false, false => shortest_from fuel' x vn vd decpt (n + 1)
      end
  end.

(** The exponent of the [e] notation: a sign and at least two digits. *)
Definition str_exp (e : Z) : string :=
  (if e <? 0 then "-" else "+") +:+
  (if Z.abs e <? 10 then "0" else "") +:+ str_int (Z.abs e).

(** The text of the digits [ds] with the decimal point after [decpt] of
    them, as [repr] lays it out. *)
Definition layout_repr (ds : string) (decpt : Z) : string :=
  let n := Z.of_nat (String.length ds) in
  if (decpt <=? -4) || (16 <? decpt) then
    match ds with
    | EmptyString => ""
    | String c rest =>
        String c (if (String.length rest =? 0)%nat then "" else "." +:+ rest)
        +:+ "e" +:+ str_exp (decpt - 1)
    end
  else if decpt <=? 0 then "0." +:+ zeros (Z.to_nat (- decpt)) +:+ ds
  else if n <=? decpt then ds +:+ zeros (Z.to_nat (decpt - n)) +:+ ".0"
  else substring 0 (Z.to_nat decpt) ds +:+ "." +:+
       substring (Z.to_nat decpt) (Z.to_nat (n - decpt)) ds.

(** [repr(x)], which is also [str(x)] and what an f-string prints. *)
Definition py_repr (x : float) : string :=
  match Prim2SF x with
  | S754_nan => "nan"
  | S754_infinity s => if s then "-inf" else "inf"
  | S754_zero s => if s then "-0.0" else "0.0"
  | S754_finite s m e =>
      let '(vn, vd) := if 0 <=? e then (Z.pos m * 2 ^ e, 1)
                       else (Z.pos m, 2 ^ (- e)) in
      let decpt := decpt_of vn vd in
      let '(c, n) := shortest_from 17 (abs x) vn vd decpt 1 in
      let '(c, decpt) := if c =? 10 ^ n then (1, decpt + 1) else (c, decpt) in
      (if s then "-" else "") +:+ layout_repr (str_int c) decpt
  end.

(** [format(x, ".2f")]: two decimals, always. *)
Definition format_2f (x : float) : string :=
  match Prim2SF x with
  | S754_nan => "nan"
  | S754_infinity s => if s then "-inf" else "inf"
  | S754_zero s => if s then "-0.00" else "0.00"
  | S754_finite s m e =>
      let c := cents m e in
      (if s then "-" else "") +:+ str_int (c / 100) +:+ "." +:+
      (if c mod 100 <? 10 then "0" else "") +:+ str_int (c mod 100)
  end.

(** The Python numbers an offset can be once it is added to an [int]. *)
Inductive pynum : Type :=
| NInt (z : Z)
| NFloat (f : float).

(** [a <= x] and [x <= b] for an [int] bound, as Python compares an [int]
    with a [float]: on the exact values, false with a NaN. *)
Definition int_le_num (a : Z) (x : pynum) : bool :=
  match x with
  | NInt z => a <=? z
  | NFloat f =>
      match float_exact f with
      | XNan => false
      | XInf neg => negb neg
      | XFin neg q => Qle_bool (inject_Z a) (xreal_signed neg q)
      end
  end.

Definition num_le_int (x : pynum) (b : Z) : bool :=
  match x with
  | NInt z => z <=? b
  | NFloat f =>
      match float_exact f with
      | XNan => false
      | XInf neg => neg
      | XFin neg q => Qle_bool (xreal_signed neg q) (inject_Z b)
      end
  end.

(** ** Time sections *)

Definition TIME_SECTIONS : list (string * Z * Z) :=
  [ ("0h-5h59", 0, 5 * 3600 + 59 * 60);
    ("6h-11h59", 6 * 3600, 11 * 3600 + 59 * 60);
    ("12h-17h59", 12 * 3600, 17 * 3600 + 59 * 60);
    ("18h-23h59", 18 * 3600, 23 * 3600 + 59 * 60) ].

(** The [for ... in TIME_SECTIONS] loop of [get_time_section] over a list of
    sections: the first section whose closed interval holds the value. *)
Fixpoint scan_sections (sections : list (string * Z * Z)) (x : pynum)
    : option string :=
  match sections with
  | [] => None
  | (label, start, end_) :: rest =>
      if int_le_num start x && num_le_int x end_ then Some label
      else scan_sections rest x
  end.

Definition get_time_section (seconds_since_midnight : pynum) : option string :=
  scan_sections TIME_SECTIONS seconds_since_midnight.


(** ** Strings *)

Definition NEWLINE : string := String "010"%char "".
Definition PLUS_MINUS : string := String "177"%char "".

(** [s.split(sep)] for a one-character separator. *)
Fixpoint split_on (sep : ascii) (s : string) : list string :=
  match s with
  | EmptyString => [""]
  | String c s' =>
      if Ascii.eqb c sep then "" :: split_on sep s'
      else match split_on sep s' with
           | [] => [String c ""]
           | w :: ws => String c w :: ws
           end
  end.

(** [l[-k]] for [k >= 1]. *)
Definition index_from_end {A : Type} (l : list A) (k : nat) : res A :=
  match rev l !! (k - 1)%nat with
  | Some a => Ok a
  | None => Raise IndexError
  end.

Fixpoint drop_prefix (p s : string) : option string :=
  match p, s with
  | EmptyString, _ => Some s
  | String a p', String b s' => if Ascii.eqb a b then drop_prefix p' s' else None
  | String _ _, EmptyString => None
  end.

(** [s.replace(old, new)] for a non-empty [old]: occurrences are replaced
    from the left and do not overlap; [skip] counts the characters of an
    occurrence still to pass over. *)
Fixpoint replace_from (old new : string) (skip : nat) (s : string) : string :=
  match s with
  | EmptyString => ""
  | String c s' =>
      match skip with
      | S k => replace_from old new k s'
      | O =>
          match drop_prefix old s with
          | Some _ => new +:+ replace_from old new (String.length old - 1) s'
          | None => String c (replace_from old new 0 s')
          end
      end
  end.

Definition str_replace (old new s : string) : string := replace_from old new 0 s.

(** [pat in s] *)
Fixpoint contains (pat s : string) : bool :=
  match drop_prefix pat s with
  | Some _ => true
  | None => match s with
            | EmptyString => false
            | String _ s' => contains pat s'
            end
  end.

Definition basename (path : string) : string :=
  default "" (last (split_on "/" path)).

Fixpoint ends_with_slash (s : string) : bool :=
  match s with
  | EmptyString => false
  | String c EmptyString => Ascii.eqb c "/"
  | String _ s' => ends_with_slash s'
  end.

(** [os.path.join(a, b)] *)
Definition path_join (a b : string) : string :=
  match drop_prefix "/" b with
  | Some _ => b
  | None => if (String.length a =? 0)%nat || ends_with_slash a then a +:+ b
            else a +:+ "/" +:+ b
  end.

Fixpoint spaces (n : nat) : string :=
  match n with
  | O => ""
  | S n' => String " " (spaces n')
  end.

(** [f"{s:<w}"] and [f"{s:^w}"] *)
Definition ljust (w : nat) (s : string) : string :=
  s +:+ spaces (w - String.length s).

Definition center (w : nat) (s : string) : string :=
  let pad := (w - String.length s)%nat in
  spaces (pad / 2) +:+ s +:+ spaces (pad - pad / 2).

Fixpoint take_while (p : ascii -> bool) (s : string) : string * string :=
  match s with
  | EmptyString => ("", "")
  | String c s' =>
      if p c then let '(a, b) := take_while p s' in (String c a, b)
      else ("", s)
  end.

(** ** Time stamps *)

Record datetime : Type := mk_datetime {
  year : Z; month : Z; day : Z; hour : Z; minute : Z; second : Z
}.

Definition is_leap (y : Z) : bool :=
  (y mod 4 =? 0) && (negb (y mod 100 =? 0) || (y mod 400 =? 0)).

Definition days_in_month (y m : Z) : Z :=
  if m =? 2 then (if is_leap y then 29 else 28)
  else if (m =? 4) || (m =? 6) || (m =? 9) || (m =? 11) then 30
  else 31.

(** The alternatives of a directive of [strptime], in the order the regular
    expression tries them; each result is the value read and the rest. *)
Definition in_range (lo hi : ascii) (c : ascii) : bool :=
  (nat_of_ascii lo <=? nat_of_ascii c)%nat && (nat_of_ascii c <=? nat_of_ascii hi)%nat.

Definition two_chars (p1 p2 : ascii -> bool) (s : string) : list (Z * string) :=
  match s with
  | String a (String b r) =>
      if p1 a && p2 b then [(10 * digit_value a + digit_value b, r)] else []
  | _ => []
  end.

Definition one_char (p : ascii -> bool) (s : string) : list (Z * string) :=
  match s with
  | String a r => if p a then [(digit_value a, r)] else []
  | _ => []
  end.

Definition space_digit (s : string) : list (Z * string) :=
  match s with
  | String a (String b r) =>
      if Ascii.eqb a " " && in_range "1" "9" b then [(digit_value b, r)] else []
  | _ => []
  end.

Definition literal (c : ascii) (s : string) : list (unit * string) :=
  match s with
  | String a r => if Ascii.eqb a c then [(tt, r)] else []
  | _ => []
  end.

(** [%Y]: [\d\d\d\d] *)
Definition dir_Y (s : string) : list (Z * string) :=
  '(a, r) ← two_chars is_digit is_digit s;
  '(b, r') ← two_chars is_digit is_digit r;
  [(100 * a + b, r')].

(** [%m]: [1[0-2]|0[1-9]|[1-9]] *)
Definition dir_m (s : string) : list (Z * string) :=
  two_chars (in_range "1" "1") (in_range "0" "2") s
  ++ two_chars (in_range "0" "0") (in_range "1" "9") s
  ++ one_char (in_range "1" "9") s.

(** [%d]: [3[0-1]|[1-2]\d|0[1-9]|[1-9]| [1-9]] *)
Definition dir_d (s : string) : list (Z * string) :=
  two_chars (in_range "3" "3") (in_range "0" "1") s
  ++ two_chars (in_range "1" "2") is_digit s
  ++ two_chars (in_range "0" "0") (in_range "1" "9") s
  ++ one_char (in_range "1" "9") s
  ++ space_digit s.

(** [%H]: [2[0-3]|[0-1]\d|\d] *)
Definition dir_H (s : string) : list (Z * string) :=
  two_chars (in_range "2" "2") (in_range "0" "3") s
  ++ two_chars (in_range "0" "1") is_digit s
  ++ one_char is_digit s.

(** [%M]: [[0-5]\d|\d] *)
Definition dir_M (s : string) : list (Z * string) :=
  two_chars (in_range "0" "5") is_digit s ++ one_char is_digit s.

(** [%S]: [6[0-1]|[0-5]\d|\d] *)
Definition dir_S (s : string) : list (Z * string) :=
  two_chars (in_range "6" "6") (in_range "0" "1") s
  ++ two_chars (in_range "0" "5") is_digit s
  ++ one_char is_digit s.

(** The matches of the pattern of ['%Y%m%d_%H%M%S'] at the start of [s], in
    backtracking order: the head is the match the engine returns. *)
Definition match_stamp (s : string) : list (datetime * string) :=
  '(y, r1) ← dir_Y s;
  '(mo, r2) ← dir_m r1;
  '(d, r3) ← dir_d r2;
  '(_, r4) ← literal "_" r3;
  '(h, r5) ← dir_H r4;
  '(mi, r6) ← dir_M r5;
  '(sec, r7) ← dir_S r6;
  [(mk_datetime y mo d h mi sec, r7)].

(** [datetime.strptime(s, '%Y%m%d_%H%M%S')]: the first match must use the
    whole text, and the fields must be a date and time [datetime] accepts. *)
Definition strptime_stamp (s : string) : res datetime :=
  match match_stamp s with
  | [] => Raise ValueError
  | (t, rest) :: _ =>
      if negb (String.length rest =? 0)%nat then Raise ValueError
      else if (1 <=? year t) && (day t <=? days_in_month (year t) (month t))
              && (second t <=? 59)
      then Ok t
      else Raise ValueError
  end.

(** The time stamp in a file name: its last two [_]-separated parts, the
    second without the extension. *)
Definition filename_stamp (ext filename : string) : res datetime :=
  a ← index_from_end (split_on "_" filename) 2;
  b ← index_from_end (split_on "_" filename) 1;
  strptime_stamp (a +:+ "_" +:+ str_replace ext "" b).

(** ** Statistics *)

(** [sum(values)] over floats: additions from the left, starting at [0]
    (CPython up to 3.11). *)
Definition py_sum (values : list float) : float :=
  fold_left PrimFloat.add values 0%float.

(** The exact value of a finite float as a rational. *)
Definition exact_ratio (x : float) : option Q :=
  match float_exact x with
  | XFin neg q => Some (xreal_signed neg q)
  | _ => None
  end.

Definition bit_length (n : Z) : Z :=
  if n =? 0 then 0 else Z.log2 (Z.abs n) + 1.

(** [statistics._integer_sqrt_of_frac_rto] *)
Definition integer_sqrt_of_frac_rto (n m : Z) : Z :=
  let a := Z.sqrt (n / m) in
  Z.lor a (if a * a * m =? n then 0 else 1).

(** [statistics._float_sqrt_of_frac]: the square root of [n/m], correctly
    rounded. *)
Definition float_sqrt_of_frac (n m : Z) : res float :=
  let q := (bit_length n - bit_length m - 109) / 2 in
  if 0 <=? q then
    int_truediv (Z.shiftl (integer_sqrt_of_frac_rto n (Z.shiftl m (2 * q))) q) 1
  else
    int_truediv (integer_sqrt_of_frac_rto (Z.shiftl n (- 2 * q)) m)
      (Z.shiftl 1 (- q)).

(** The exact sum of the squared deviations from the mean, as
    [statistics._ss] computes it on finite data: [(n*sxx - sx*sx)/n]. *)
Definition sum_sq_dev (xs : list Q) : Q :=
  let n := inject_Z (Z.of_nat (length xs)) in
  let sx := fold_right Qplus 0%Q xs in
  let sxx := fold_right Qplus 0%Q (map (fun x => x * x)%Q xs) in
  ((n * sxx - sx * sx) / n)%Q.

(** [statistics.stdev(data)] on a list of floats (CPython 3.11): the square
    root of the exact sum of squared deviations over [n - 1].  A list with
    an infinity or a NaN ends in an [AttributeError]. *)
Definition stdev (data : list float) : res float :=
  if (length data <? 2)%nat then Raise StatisticsError
  else match mapM (fun x => match exact_ratio x with
                            | Some q => Ok q
                            | None => Raise AttributeError
                            end) data with
       | Raise e => Raise e
       | Ok xs =>
           let mss := Qred (sum_sq_dev xs / inject_Z (Z.of_nat (length xs) - 1)) in
           float_sqrt_of_frac (Qnum mss) (Z.pos (Qden mss))
       end.

Definition calc_stats (values : list float) : res string :=
  match values with
  | [] => Ok ("0.0 " +:+ PLUS_MINUS +:+ " 0.0")
  | _ =>
      n ← float_of_int (Z.of_nat (length values));
      let mean := (py_sum values / n)%float in
      stddev ← (if (1 <? length values)%nat then stdev values else Ok 0%float);
      Ok (py_repr (py_round2 mean) +:+ " " +:+ PLUS_MINUS +:+ " "
          +:+ py_repr (py_round2 stddev))
  end.

(** ** Python values read from JSON *)

#[local] Set Warnings "-register-all".
Inductive pyval : Type :=
| PyNone
| PyBool (b : bool)
| PyInt (z : Z)
| PyFloat (f : float)
| PyStr (s : string)
| PyList (l : list pyval)
| PyDict (d : list (string * pyval)).

Fixpoint assoc {A : Type} (key : string) (d : list (string * A)) : option A :=
  match d with
  | [] => None
  | (k, v) :: d' => if String.eqb k key then Some v else assoc key d'
  end.

(** [v[key]] for a [str] key: only a [dict] can be subscripted so. *)
Definition py_getitem (v : pyval) (key : string) : res pyval :=
  match v with
  | PyDict d => match assoc key d with
                | Some x => Ok x
                | None => Raise KeyError
                end
  | _ => Raise TypeError
  end.

(** The items a [for] loop over [v] visits. *)
Definition py_iter (v : pyval) : res (list pyval) :=
  match v with
  | PyList l => Ok l
  | PyDict d => Ok (map (fun kv => PyStr (fst kv)) d)
  | PyStr s => Ok (map (fun c => PyStr (String c "")) (list_ascii_of_string s))
  | _ => Raise TypeError
  end.

(** [v / d] for a float [d] that is not zero. *)
Definition py_truediv (v : pyval) (d : float) : res float :=
  match v with
  | PyInt z => f ← float_of_int z; Ok (f / d)%float
  | PyBool b => Ok ((if b then 1 else 0) / d)%float
  | PyFloat f => Ok (f / d)%float
  | _ => Raise TypeError
  end.

(** [a + v] for an [int] [a]. *)
Definition py_add_int (a : Z) (v : pyval) : res pynum :=
  match v with
  | PyInt z => Ok (NInt (a + z))
  | PyBool b => Ok (NInt (a + (if b then 1 else 0)))
  | PyFloat f => x ← float_of_int a; Ok (NFloat (x + f)%float)
  | _ => Raise TypeError
  end.

(** ** The environment *)

(** What the script reads: [listdir d] is [os.listdir(d)]; [read_lines p] is
    the lines of the text file [p] as the loop [for line in f] sees them;
    [json_load p] is [json.load] of the opened file [p]; [open_write p] is
    [open(p, 'w')].  What it writes: [file_write p written chunk] is
    [f.write(chunk)] on the file opened at [p], after the calls that handed
    over [written]; [file_close p written] is the close of that file when
    the [with] block is left. *)
Record filesystem : Type := {
  listdir : string -> res (list string);
  read_lines : string -> res (list string);
  json_load : string -> res pyval;
  open_write : string -> res unit;
  file_write : string -> string -> string -> res unit;
  file_close : string -> string -> res unit
}.

(** What one call of [print] wrote: a text, or a text followed by [str(e)]
    of a caught exception. *)
Inductive out : Type :=
| Printed (text : string)
| PrintedError (text : string) (e : exn).

Definition sample : Type := pyval * float.
Definition run : Type := option datetime * list sample.

(** ** Parsers *)

Definition is_digit_or_dot (c : ascii) : bool := is_digit c || Ascii.eqb c ".".

(** A match of ['second (\d+): ([\d.]+) mbit/s'] that starts at the first
    character.  Each repetition is followed by a character outside its
    class, so only its longest run can match. *)
Definition match_here (line : string) : option (string * string) :=
  r1 ← drop_prefix "second " line;
  let '(g1, r2) := take_while is_digit r1 in
  if (String.length g1 =? 0)%nat then None else
  r3 ← drop_prefix ": " r2;
  let '(g2, r4) := take_while is_digit_or_dot r3 in
  if (String.length g2 =? 0)%nat then None else
  _ ← drop_prefix " mbit/s" r4;
  Some (g1, g2).

(** [re.search]: the match at the leftmost position that has one. *)
Fixpoint re_search (line : string) : option (string * string) :=
  match match_here line with
  | Some g => Some g
  | None => match line with
            | EmptyString => None
            | String _ line' => re_search line'
            end
  end.

(** The loop over the lines of a qperf file. *)
Fixpoint scan_lines (lines : list string) : res (list sample) :=
  match lines with
  | [] => Ok []
  | line :: rest =>
      match re_search line with
      | Some (g1, g2) =>
          sec ← py_int g1;
          throughput ← py_float g2;
          more ← scan_lines rest;
          Ok ((PyInt sec, throughput) :: more)
      | None => scan_lines rest
      end
  end.

Definition parse_qperf_body (fs : filesystem) (filepath : string)
    : res (datetime * list sample) :=
  let filename := basename filepath in
  start_time ← filename_stamp ".txt" filename;
  lines ← read_lines fs filepath;
  throughputs ← scan_lines lines;
  Ok (start_time, throughputs).

(** The [try ... except Exception] around a parser's body. *)
Definition guarded (text : string) (body : res (datetime * list sample))
    : run * list out :=
  match body with
  | Ok (start_time, throughputs) => ((Some start_time, throughputs), [])
  | Raise e => ((None, []), [PrintedError text e])
  end.

Definition parse_qperf_file (fs : filesystem) (filepath : string)
    : run * list out :=
  guarded ("Error parsing qperf file " +:+ filepath +:+ ": ")
    (parse_qperf_body fs filepath).

Definition key_or_value_error (e : exn) : bool :=
  match e with
  | KeyError | ValueError => true
  | _ => false
  end.

(** [data['start']['timestamp']['time']] *)
Definition json_time_field (data : pyval) : res pyval :=
  start ← py_getitem data "start";
  timestamp ← py_getitem start "timestamp";
  py_getitem timestamp "time".

Section Iperf.
(** [datetime.strptime(s, '%a, %d %b %Y %H:%M:%S GMT')] on a [str]: the
    names of days and months come from the locale; [None] stands for its
    [ValueError]. *)
Variable strptime_gmt : string -> option datetime.

Definition py_strptime_gmt (v : pyval) : res datetime :=
  match v with
  | PyStr s => match strptime_gmt s with
               | Some t => Ok t
               | None => Raise ValueError
               end
  | _ => Raise TypeError
  end.

Definition iperf_start_time (data : pyval) (filename : string)
    : res datetime :=
  try_except
    (start_time_str ← json_time_field data;
     json_time ← py_strptime_gmt start_time_str;
     filename_time ← filename_stamp ".json" filename;
     Ok filename_time)
    key_or_value_error
    (filename_stamp ".json" filename).

Definition iperf_sample (interval : pyval) : res sample :=
  sum ← py_getitem interval "sum";
  sec ← py_getitem sum "start";
  sum' ← py_getitem interval "sum";
  bps ← py_getitem sum' "bits_per_second";
  throughput ← py_truediv bps 1e6;
  Ok (sec, throughput).

Definition parse_iperf_body (fs : filesystem) (filepath : string)
    : res (datetime * list sample) :=
  let filename := basename filepath in
  data ← json_load fs filepath;
  start_time ← iperf_start_time data filename;
  intervals ← py_getitem data "intervals";
  items ← py_iter intervals;
  throughputs ← mapM iperf_sample items;
  Ok (start_time, throughputs).

Definition parse_iperf_file (fs : filesystem) (filepath : string)
    : run * list out :=
  guarded ("Error parsing iperf3 file " +:+ filepath +:+ ": ")
    (parse_iperf_body fs filepath).
End Iperf.

(** ** Grouping *)

Abbreviation buckets := (gmap string (gmap string (list float))).

Definition empty_sections : gmap string (list float) :=
  list_to_map [("0h-5h59", []); ("6h-11h59", []); ("12h-17h59", []);
               ("18h-23h59", [])].

Definition empty_buckets : buckets :=
  list_to_map [("wlan0", empty_sections); ("wlan1", empty_sections)].

(** [data[interface][section]] *)
Definition bucket (data : buckets) (interface section : string)
    : res (list float) :=
  match data !! interface with
  | None => Raise KeyError
  | Some by_section =>
      match by_section !! section with
      | None => Raise KeyError
      | Some values => Ok values
      end
  end.

(** [data[interface][section].append(throughput)] *)
Definition bucket_append (data : buckets) (interface section : string)
    (throughput : float) : res buckets :=
  match data !! interface with
  | None => Raise KeyError
  | Some by_section =>
      match by_section !! section with
      | None => Raise KeyError
      | Some values =>
          Ok (<[interface := <[section := (values ++ [throughput])%list]> by_section]> data)
      end
  end.

Definition interface_of (filename : string) : option string :=
  if contains "wlan0" filename then Some "wlan0"
  else if contains "wlan1" filename then Some "wlan1"
  else None.

Definition seconds_since_midnight (start_time : datetime) (sec : pyval)
    : res pynum :=
  py_add_int (hour start_time * 3600 + minute start_time * 60
              + second start_time) sec.

(** The body of the loop over the samples of one run. *)
Definition add_sample (start_time : datetime) (interface : string)
    (data : buckets) (s : sample) : res buckets :=
  x ← seconds_since_midnight start_time (fst s);
  match get_time_section x with
  | Some section => bucket_append data interface section (snd s)
  | None => Ok data
  end.

Fixpoint add_samples (start_time : datetime) (interface : string)
    (data : buckets) (throughputs : list sample) : res buckets :=
  match throughputs with
  | [] => Ok data
  | s :: rest =>
      data' ← add_sample start_time interface data s;
      add_samples start_time interface data' rest
  end.

Section Process.
Variable parse_func : string -> run * list out.
Variables directory file_pattern : string.

(** The body of the loop over the directory entries: what is printed and
    the buckets afterwards. *)
Definition process_entry (data : buckets) (filename : string)
    : list out * res buckets :=
  if contains file_pattern filename then
    let '((start_time, throughputs), printed) :=
      parse_func (path_join directory filename) in
    match start_time with
    | None => (printed, Ok data)
    | Some t =>
        match interface_of filename with
        | None => (printed, Ok data)
        | Some interface => (printed, add_samples t interface data throughputs)
        end
    end
  else ([], Ok data).

Fixpoint process_entries (data : buckets) (filenames : list string)
    : list out * res buckets :=
  match filenames with
  | [] => ([], Ok data)
  | filename :: rest =>
      match process_entry data filename with
      | (printed, Ok data') =>
          let '(printed', r) := process_entries data' rest in
          ((printed ++ printed')%list, r)
      | (printed, Raise e) => (printed, Raise e)
      end
  end.
End Process.

Definition process_files (fs : filesystem) (directory : string)
    (parse_func : string -> run * list out) (file_pattern : string)
    : list out * res buckets :=
  match listdir fs directory with
  | Raise e => ([], Raise e)
  | Ok filenames =>
      process_entries parse_func directory file_pattern empty_buckets filenames
  end.

(** ** Reports *)

Definition section_labels : list string := map (fun s => fst (fst s)) TIME_SECTIONS.

(** The four cells of a row, in the order both reports compute them. *)
Definition row_cells (qperf_data iperf_data : buckets) (section : string)
    : res (list string) :=
  w0_q ← bucket qperf_data "wlan0" section ≫= calc_stats;
  w1_q ← bucket qperf_data "wlan1" section ≫= calc_stats;
  w0_i ← bucket iperf_data "wlan0" section ≫= calc_stats;
  w1_i ← bucket iperf_data "wlan1" section ≫= calc_stats;
  Ok [w0_q; w1_q; w0_i; w1_i].

Fixpoint join_with (sep : string) (l : list string) : string :=
  match l with
  | [] => ""
  | [a] => a
  | a :: rest => a +:+ sep +:+ join_with sep rest
  end.

Definition table_row (section : string) (cells : list string) : string :=
  join_with " | " (ljust 14 section :: map (center 16) cells).

Fixpoint print_rows (qperf_data iperf_data : buckets) (sections : list string)
    : list out * res unit :=
  match sections with
  | [] => ([], Ok tt)
  | section :: rest =>
      match row_cells qperf_data iperf_data section with
      | Raise e => ([], Raise e)
      | Ok cells =>
          let '(printed, r) := print_rows qperf_data iperf_data rest in
          (Printed (table_row section cells) :: printed, r)
      end
  end.

(** The three lines above the rows of the table. *)
Definition TABLE_HEAD : list out :=
  [ Printed (NEWLINE +:+ "WiFi Throughput Statistics (Mbps):");
    Printed "Time Section   | wlan0 qperf      | wlan1 qperf      | wlan0 iperf3     | wlan1 iperf3     ";
    Printed (String.concat "" (replicate 80 "-")) ].

Definition print_table (qperf_data iperf_data : buckets) : list out * res unit :=
  let '(printed, r) := print_rows qperf_data iperf_data section_labels in
  ((TABLE_HEAD ++ printed)%list, r).

Definition CSV_HEADER : string :=
  "Time Section,wlan0 qperf (Mbps),wlan1 qperf (Mbps),wlan0 iperf3 (Mbps),wlan1 iperf3 (Mbps)".

Definition csv_row (section : string) (cells : list string) : string :=
  join_with "," (section :: cells) +:+ NEWLINE.

Definition output_file (HOME : string) : string :=
  path_join (path_join HOME "build-qperf") "wifi_throughput_stats.csv".

(** The loop over the sections in [save_to_csv], on the file opened at
    [path] after the writes of [written]: the text handed over by the calls
    of [f.write] that returned, and the exception of the statistics or of
    [f.write] that stopped the loop when there is one. *)
Fixpoint write_rows (fs : filesystem) (path written : string)
    (qperf_data iperf_data : buckets) (sections : list string)
    : string * res unit :=
  match sections with
  | [] => (written, Ok tt)
  | section :: rest =>
      match row_cells qperf_data iperf_data section with
      | Raise e => (written, Raise e)
      | Ok cells =>
          match file_write fs path written (csv_row section cells) with
          | Raise e => (written, Raise e)
          | Ok _ =>
              write_rows fs path (written +:+ csv_row section cells)
                qperf_data iperf_data rest
          end
      end
  end.

(** The body of the [with] block: the header, then the rows. *)
Definition write_csv (fs : filesystem) (path : string)
    (qperf_data iperf_data : buckets) : string * res unit :=
  match file_write fs path "" (CSV_HEADER +:+ NEWLINE) with
  | Raise e => ("", Raise e)
  | Ok _ =>
      write_rows fs path (CSV_HEADER +:+ NEWLINE) qperf_data iperf_data
        section_labels
  end.

(** [save_to_csv]: what is printed and, when the file could be opened, the
    text handed over by the calls of [f.write] that returned (the content of
    the file when nothing raises).  Leaving the [with] block closes the file
    also when the block raises, and an exception of the close is then the
    one that is caught. *)
Definition save_to_csv (fs : filesystem) (HOME : string)
    (qperf_data iperf_data : buckets) : list out * option string :=
  match open_write fs (output_file HOME) with
  | Raise e => ([PrintedError "Error saving to CSV: " e], None)
  | Ok _ =>
      let '(written, r) :=
        write_csv fs (output_file HOME) qperf_data iperf_data in
      match file_close fs (output_file HOME) written with
      | Raise e => ([PrintedError "Error saving to CSV: " e], Some written)
      | Ok _ =>
          match r with
          | Ok _ =>
              ([Printed (NEWLINE +:+ "Results saved to " +:+ output_file HOME)],
               Some written)
          | Raise e => ([PrintedError "Error saving to CSV: " e], Some written)
          end
      end
  end.

Definition QPERF_DIR (HOME : string) : string :=
  path_join (path_join HOME "build-qperf") "qperf_result".
Definition IPERF_DIR (HOME : string) : string :=
  path_join (path_join HOME "build-qperf") "iperf3_result".

Definition main (strptime_gmt : string -> option datetime) (fs : filesystem)
    (HOME : string) : list out * res unit :=
  let '(p1, r1) := process_files fs (QPERF_DIR HOME) (parse_qperf_file fs)
                     "qperf_throughput_rtt" in
  match r1 with
  | Raise e => (p1, Raise e)
  | Ok qperf_data =>
      let '(p2, r2) := process_files fs (IPERF_DIR HOME)
                         (parse_iperf_file strptime_gmt fs) "iperf3_throughput" in
      match r2 with
      | Raise e => ((p1 ++ p2)%list, Raise e)
      | Ok iperf_data =>
          let '(p3, r3) := print_table qperf_data iperf_data in
          match r3 with
          | Raise e => ((p1 ++ p2 ++ p3)%list, Raise e)
          | Ok _ =>
              let '(p4, _) := save_to_csv fs HOME qperf_data iperf_data in
              ((p1 ++ p2 ++ p3 ++ p4)%list, Ok tt)
          end
      end
  end.

(** ** Sample environments *)

Definition no_file {A : Type} (_ : string) : res A := Raise OSError.

(** A directory [d] that holds the one JSON file [name] with content [doc]. *)
Definition one_json_file (d name : string) (doc : pyval) : filesystem :=
  {| listdir := fun p => if String.eqb p d then Ok [name] else Raise OSError;
     read_lines := no_file;
     json_load := fun p => if String.eqb p (path_join d name) then Ok doc
                           else Raise OSError;
     open_write := fun _ => Ok tt;
     file_write := fun _ _ _ => Ok tt;
     file_close := fun _ _ => Ok tt |}.

(** A directory [d] that holds the one text file [name] with the given lines. *)
Definition one_text_file (d name : string) (lines : list string) : filesystem :=
  {| listdir := fun p => if String.eqb p d then Ok [name] else Raise OSError;
     read_lines := fun p => if String.eqb p (path_join d name) then Ok lines
                            else Raise OSError;
     json_load := no_file;
     open_write := fun _ => Ok tt;
     file_write := fun _ _ _ => Ok tt;
     file_close := fun _ _ => Ok tt |}.

Definition iperf_doc_100 : pyval :=
  PyDict [("intervals",
           PyList [PyDict [("sum", PyDict [("start", PyInt 0);
                                           ("bits_per_second", PyInt 100000000)])]])].

Definition IPERF_NAME : string := "wlan1_iperf3_throughput_20250605_120000.json".

(** The same interval under a time stamp field that is a number. *)
Definition iperf_doc_time_0 : pyval :=
  PyDict [("start", PyDict [("timestamp", PyDict [("time", PyInt 0)])]);
          ("intervals",
           PyList [PyDict [("sum", PyDict [("start", PyInt 0);
                                           ("bits_per_second", PyInt 100000000)])]])].

Definition iperf_fs_time_0 : filesystem :=
  one_json_file "/r" IPERF_NAME iperf_doc_time_0.

(** An interval whose [start] is a text. *)
Definition iperf_doc_start_x : pyval :=
  PyDict [("intervals",
           PyList [PyDict [("sum", PyDict [("start", PyStr "x");
                                           ("bits_per_second", PyInt 100000000)])]])].

Definition IPERF_NAME_X : string := "wlan0_iperf3_throughput_20250605_110000.json".

(** The home [/home/u] with no qperf result and two iperf3 results, the
    first with the text offset. *)
Definition iperf_fs_start_x : filesystem :=
  {| listdir := fun p =>
       if String.eqb p (IPERF_DIR "/home/u") then Ok [IPERF_NAME_X; IPERF_NAME]
       else if String.eqb p (QPERF_DIR "/home/u") then Ok []
       else Raise OSError;
     read_lines := no_file;
     json_load := fun p =>
       if String.eqb p (path_join (IPERF_DIR "/home/u") IPERF_NAME_X)
       then Ok iperf_doc_start_x
       else if String.eqb p (path_join (IPERF_DIR "/home/u") IPERF_NAME)
       then Ok iperf_doc_100
       else Raise OSError;
     open_write := fun _ => Ok tt;
     file_write := fun _ _ _ => Ok tt;
     file_close := fun _ _ => Ok tt |}.

(** A qperf file whose second line has the token [1.2.3]. *)
Definition QPERF_NAME : string := "wlan0_qperf_throughput_rtt_20250605_000000.txt".

Definition qperf_fs_bad_token : filesystem :=
  one_text_file "/r" QPERF_NAME
    ["second 0: 50.0 mbit/s"; "second 1: 1.2.3 mbit/s"; "second 2: 60.0 mbit/s"].

(** The buckets after the qperf samples [50.0] and [60.0] of a run on
    [wlan0] that started at midnight. *)
Definition buckets_50_60 : buckets :=
  <["wlan0" := <["0h-5h59" := [50%float; 60%float]]> empty_sections]> empty_buckets.

(** The buckets after the one iperf3 sample [100.0] on [wlan1] at noon. *)
Definition buckets_100 : buckets :=
  <["wlan1" := <["12h-17h59" := [100%float]]> empty_sections]> empty_buckets.

(** The home [/home/u] whose qperf results are the one file [QPERF_NAME]
    with two samples. *)
Definition qperf_fs_50_60 : filesystem :=
  one_text_file (QPERF_DIR "/home/u") QPERF_NAME
    ["second 0: 50.0 mbit/s"; "second 5: 60.0 mbit/s"].

(** The exception a call ended with, when it did. *)
Definition raised {A : Type} (r : list out * res A) : option exn :=
  match snd r with
  | Ok _ => None
  | Raise e => Some e
  end.

(** Every bucket of the mapping, interface by interface and section by
    section. *)
Definition bucket_table (data : buckets) : list (string * string * res (list float)) :=
  interface ← ["wlan0"; "wlan1"];
  section ← section_labels;
  [(interface, section, bucket data interface section)].

(** What a call of [process_files] printed and every bucket of the mapping
    it returned, when it returned. *)
Definition outcome (r : list out * res buckets)
    : option (list out * list (string * string * res (list float))) :=
  match r with
  | (printed, Ok data) => Some (printed, bucket_table data)
  | (_, Raise _) => None
  end.

(** The buckets with [100.0] in [(wlan1, "12h-17h59")] and nothing else. *)
Definition bucket_table_100 : list (string * string * res (list float)) :=
  [ ("wlan0", "0h-5h59", Ok []); ("wlan0", "6h-11h59", Ok []);
    ("wlan0", "12h-17h59", Ok []); ("wlan0", "18h-23h59", Ok []);
    ("wlan1", "0h-5h59", Ok []); ("wlan1", "6h-11h59", Ok []);
    ("wlan1", "12h-17h59", Ok [100%float]); ("wlan1", "18h-23h59", Ok []) ].

Definition iperf_fs_100 : filesystem := one_json_file "/r" IPERF_NAME iperf_doc_100.

(** ** Exact values and day wrap-around, to state where a sample falls *)

Definition num_exact (x : pynum) : option Q :=
  match x with
  | NInt z => Some (inject_Z z)
  | NFloat f => exact_ratio f
  end.

(** A number of seconds brought back into one day of 86400 seconds. *)
Definition wrap_day (q : Q) : Q :=
  (q - inject_Z (86400 * Qfloor (q / inject_Z 86400)))%Q.

(** [q] lies in the closed interval of the section called [label]. *)
Definition in_section (label : string) (q : Q) : Prop :=
  exists start end_ : Z,
    In (label, start, end_) TIME_SECTIONS
    /\ (inject_Z start <= q)%Q /\ (q <= inject_Z end_)%Q.

(** The value [throughput] of the bucket [(interface, section)] is a sample
    of a run that was parsed: a listed file whose name has the pattern and
    names the interface, for which the parser gave a start time, and whose
    sample's second, counted from midnight and wrapped to one day, lies in
    the section. *)
Definition sample_of_parsed_run (fs : filesystem) (directory : string)
    (parse_func : string -> run * list out) (file_pattern : string)
    (interface section : string) (throughput : float) : Prop :=
  exists (filenames : list string) (filename : string) (start_time : datetime)
         (throughputs : list sample) (printed : list out) (sec : pyval)
         (x : pynum) (q : Q),
    listdir fs directory = Ok filenames
    /\ In filename filenames
    /\ contains file_pattern filename = true
    /\ interface_of filename = Some interface
    /\ parse_func (path_join directory filename)
       = ((Some start_time, throughputs), printed)
    /\ In (sec, throughput) throughputs
    /\ seconds_since_midnight start_time sec = Ok x
    /\ num_exact x = Some q
    /\ in_section section (wrap_day q).

(** Every value of every bucket satisfies [prov]. *)
Definition all_from_runs (prov : string -> string -> float -> Prop)
    (data : buckets) : Prop :=
  forall (i s : string) (values : list float) (v : float),
    bucket data i s = Ok values -> In v values -> prov i s v.

(** ** The text the statistics are compared with *)

(** [calc_stats] as the format ["{mean:.2f} ± {stddev:.2f}"] would print it:
    the same mean and standard deviation, each with two decimals. *)
Definition calc_stats_2f (values : list float) : res string :=
  n ← float_of_int (Z.of_nat (length values));
  let mean := (py_sum values / n)%float in
  stddev ← (if (1 <? length values)%nat then stdev values else Ok 0%float);
  Ok (format_2f mean +:+ " " +:+ PLUS_MINUS +:+ " " +:+ format_2f stddev).

(** The exact mean of rationals. *)
Definition mean_Q (xs : list Q) : Q :=
  (fold_right Qplus 0%Q xs / inject_Z (Z.of_nat (length xs)))%Q.

(** The sum of the squared deviations from [mu], term by term. *)
Definition sum_sq_from (mu : Q) (xs : list Q) : Q :=
  fold_right Qplus 0%Q (map (fun x => (x - mu) * (x - mu))%Q xs).

(** ** Reading a CSV text back *)

(** [sep] does not occur in [s]. *)
Fixpoint free_of (sep : ascii) (s : string) : bool :=
  match s with
  | EmptyString => true
  | String c s' => negb (Ascii.eqb c sep) && free_of sep s'
  end.

Definition COMMA : ascii := ","%char.
Definition LF : ascii := "010"%char.
Definition QUOTE : ascii := "034"%char.

Fixpoint all_chars (p : ascii -> bool) (s : string) : bool :=
  match s with
  | EmptyString => true
  | String c s' => p c && all_chars p s'
  end.

Definition plain_char (c : ascii) : bool :=
  negb (Ascii.eqb c COMMA) && negb (Ascii.eqb c LF) && negb (Ascii.eqb c QUOTE).

(** Neither a comma, a line feed nor a quote occurs in [s]: a CSV reader
    takes such a field as it is. *)
Definition plain (s : string) : bool := all_chars plain_char s.

(** The lines of a text whose lines each end in a line feed. *)
Definition text_lines (text : string) : list string :=
  match split_on LF text with
  | [] => []
  | l => removelast l
  end.

(** The rows a CSV reader gives for a text without quoted fields: a row per
    line, a field per comma-separated part. *)
Definition csv_parse (text : string) : list (list string) :=
  map (split_on COMMA) (text_lines text).

(** The cells of the rows that a report completes: those of the sections
    before the first one whose statistics raise. *)
Fixpoint rows_done (qperf_data iperf_data : buckets) (sections : list string)
    : list (list string) :=
  match sections with
  | [] => []
  | section :: rest =>
      match row_cells qperf_data iperf_data section with
      | Ok cells => cells :: rows_done qperf_data iperf_data rest
      | Raise _ => []
      end
  end.

(** The text whose lines are [lines], each ended by a line feed. *)
Fixpoint rows_text (lines : list string) : string :=
  match lines with
  | [] => ""
  | l :: rest => l +:+ NEWLINE +:+ rows_text rest
  end.

(** ** What a run contributes to a bucket *)

(** The section of a sample, when its second since midnight can be computed
    and has one. *)
Definition section_of (start_time : datetime) (sec : pyval) : option string :=
  match seconds_since_midnight start_time sec with
  | Ok x => get_time_section x
  | Raise _ => None
  end.

(** The throughputs of the samples of a run that fall in [section], in the
    order of the samples. *)
Fixpoint selected (start_time : datetime) (section : string)
    (throughputs : list sample) : list float :=
  match throughputs with
  | [] => []
  | s :: rest =>
      match section_of start_time (fst s) with
      | Some label =>
          if String.eqb label section
          then snd s :: selected start_time section rest
          else selected start_time section rest
      | None => selected start_time section rest
      end
  end.

(** What the directory entry [filename] adds to the bucket
    [(interface, section)]. *)
Definition contribution (parse_func : string -> run * list out)
    (directory file_pattern interface section filename : string) : list float :=
  if contains file_pattern filename then
    match parse_func (path_join directory filename) with
    | ((Some start_time, throughputs), _) =>
        match interface_of filename with
        | Some i => if String.eqb i interface
                    then selected start_time section throughputs else []
        | None => []
        end
    | ((None, _), _) => []
    end
  else [].

(** What the parser prints for the directory entry [filename], when the
    entry is parsed at all. *)
Definition printed_for (parse_func : string -> run * list out)
    (directory file_pattern filename : string) : list out :=
  if contains file_pattern filename
  then snd (parse_func (path_join directory filename)) else [].

(** Every bucket of the two interfaces and four sections is there. *)
Definition keyed (data : buckets) : Prop :=
  forall i s : string,
    In i ["wlan0"; "wlan1"] -> In s section_labels ->
    exists values : list float, bucket data i s = Ok values.

(** The line has a match of the qperf pattern. *)
Definition has_match (line : string) : bool :=
  match re_search line with
  | Some _ => true
  | None => false
  end.

(** The sample [s] is what the loop of [parse_qperf_file] makes of [line]. *)
Definition sample_of_line (line : string) (s : sample) : Prop :=
  exists (g1 g2 : string) (z : Z) (f : float),
    re_search line = Some (g1, g2)
    /\ py_int g1 = Ok z /\ py_float g2 = Ok f /\ s = (PyInt z, f).

(** ** Writing a time stamp the way the file names carry it *)

Definition digit_char (d : Z) : ascii := ascii_of_nat (Z.to_nat (48 + d)).

(** The two decimal digits of [n], [0 <= n <= 99]. *)
Definition two_digits (n : Z) : string :=
  String (digit_char (n / 10)) (String (digit_char (n mod 10)) "").

(** [YYYYMMDD] and [HHMMSS]. *)
Definition date_text (t : datetime) : string :=
  two_digits (year t / 100) +:+ two_digits (year t mod 100)
  +:+ two_digits (month t) +:+ two_digits (day t).

Definition time_text (t : datetime) : string :=
  two_digits (hour t) +:+ two_digits (minute t) +:+ two_digits (second t).

Definition stamp_text (t : datetime) : string :=
  date_text t +:+ "_" +:+ time_text t.

(** A date of the years 1 to 9999 and a time of day. *)
Definition valid_stamp (t : datetime) : Prop :=
  1 <= year t <= 9999 /\ 1 <= month t <= 12
  /\ 1 <= day t <= days_in_month (year t) (month t)
  /\ 0 <= hour t <= 23 /\ 0 <= minute t <= 59 /\ 0 <= second t <= 59.

(** ** A run without result files *)

(** A file system whose directories hold one file that is no result file. *)
Definition other_files : filesystem :=
  {| listdir := fun _ => Ok ["README.md"];
     read_lines := no_file;
     json_load := no_file;
     open_write := fun _ => Ok tt;
     file_write := fun _ _ _ => Ok tt;
     file_close := fun _ _ => Ok tt |}.

(** What [calc_stats] gives for a bucket without values. *)
Definition NO_VALUES : string := "0.0 " +:+ PLUS_MINUS +:+ " 0.0".

(** The row of the table for a section without any value, from the label
    padded to fourteen characters. *)
Definition no_values_row (label : string) : string :=
  let cell := "   0.0 " +:+ PLUS_MINUS +:+ " 0.0    " in
  label +:+ " | " +:+ cell +:+ " | " +:+ cell +:+ " | " +:+ cell
  +:+ " | " +:+ cell.

Definition NO_VALUES_TABLE : list string :=
  [ no_values_row "0h-5h59       "; no_values_row "6h-11h59      ";
    no_values_row "12h-17h59     "; no_values_row "18h-23h59     " ].

(** ** Reading the table, and the calls on the CSV file alone *)

(** [s.lstrip(' ')], [s.rstrip(' ')] and [s.strip(' ')] *)
Fixpoint lstrip (s : string) : string :=
  match s with
  | String c s' => if Ascii.eqb c " " then lstrip s' else s
  | EmptyString => ""
  end.

Fixpoint rstrip (s : string) : string :=
  match s with
  | EmptyString => ""
  | String c s' =>
      match rstrip s' with
      | EmptyString => if Ascii.eqb c " " then "" else String c ""
      | r => String c r
      end
  end.

Definition strip (s : string) : string := rstrip (lstrip s).

(** The cells of a printed row as a reader takes them: the parts between
    the bars, without the spaces that pad them. *)
Definition table_cells (line : string) : list string :=
  map strip (split_on "|" line).

(** A text that loses nothing when it is read from a cell of the table. *)
Definition reads_whole (s : string) : Prop :=
  strip s = s /\ free_of "|" s = true.

(** Neither a space nor a bar. *)
Definition solid_char (c : ascii) : bool :=
  negb (Ascii.eqb c " ") && negb (Ascii.eqb c "|").

Definition solid (s : string) : bool := all_chars solid_char s.

(** [f.write] of each chunk in turn on the file opened at [path]: the text
    handed over by the calls that returned, and the exception of the call
    that did not. *)
Fixpoint write_chunks (fs : filesystem) (path written : string)
    (chunks : list string) : string * res unit :=
  match chunks with
  | [] => (written, Ok tt)
  | chunk :: rest =>
      match file_write fs path written chunk with
      | Raise e => (written, Raise e)
      | Ok _ => write_chunks fs path (written +:+ chunk) rest
      end
  end.

(** Opening the file at [path], writing the chunks and closing it: nothing
    but the calls on the file. *)
Definition csv_io (fs : filesystem) (path : string) (chunks : list string)
    : res unit :=
  match open_write fs path with
  | Raise e => Raise e
  | Ok _ =>
      let '(written, r) := write_chunks fs path "" chunks in
      match file_close fs path written with
      | Raise e => Raise e
      | Ok _ => r
      end
  end.

(** The last line [save_to_csv] prints when the statistics of every row
    are there: it tells how the calls on the file went. *)
Definition csv_report (fs : filesystem) (HOME : string)
    (rows : list (list string)) : out :=
  match csv_io fs (output_file HOME)
          ((CSV_HEADER +:+ NEWLINE) :: zip_with csv_row section_labels rows) with
  | Ok _ => Printed (NEWLINE +:+ "Results saved to " +:+ output_file HOME)
  | Raise e => PrintedError "Error saving to CSV: " e
  end.


(** * Properties *)

(** ** Time sections *)

Lemma get_time_section_int (z : Z) :
  get_time_section (NInt z) =
    if (0 <=? z) && (z <=? 21540) then Some "0h-5h59"
    else if (21600 <=? z) && (z <=? 43140) then Some "6h-11h59"
    else if (43200 <=? z) && (z <=? 64740) then Some "12h-17h59"
    else if (64800 <=? z) && (z <=? 86340) then Some "18h-23h59"
    else None.
Proof. reflexivity. Qed.

Lemma get_time_section_21600 : get_time_section (NInt 21600) = Some "6h-11h59".
Proof. reflexivity. Qed.

Lemma get_time_section_outside_day (z : Z) :
  z < 0 \/ 86400 <= z -> get_time_section (NInt z) = None.
Proof.
  intros Hz. rewrite get_time_section_int.
  repeat match goal with
         | |- context [?a <=? ?b] => destruct (Z.leb_spec a b); simpl; try lia
         end; reflexivity.
Qed.

(** The seconds [hh:59:01 .. hh:59:59] before each section boundary belong
    to no section. *)
Lemma get_time_section_last_minute (z : Z) :
  21540 < z < 21600 \/ 43140 < z < 43200 \/ 64740 < z < 64800 \/ 86340 < z ->
  get_time_section (NInt z) = None.
Proof.
  intros Hz. rewrite get_time_section_int.
  repeat match goal with
         | |- context [?a <=? ?b] => destruct (Z.leb_spec a b); simpl; try lia
         end; reflexivity.
Qed.

(** C1: at 21599 and at 86399 seconds [get_time_section] finds no section
    (the interval ends are [hh:59:00]); 21600 is in ["6h-11h59"], and no
    value below 0 or from 86400 on has a section. *)
Theorem get_time_section_boundaries :
  get_time_section (NInt 21599) = None
  /\ get_time_section (NInt 86399) = None
  /\ get_time_section (NInt 21600) = Some "6h-11h59"
  /\ (forall z : Z, z < 0 \/ 86400 <= z -> get_time_section (NInt z) = None).
Proof.
  split; [reflexivity|]. split; [reflexivity|]. split; [reflexivity|].
  apply get_time_section_outside_day.
Qed.

Lemma scan_sections_Some (sections : list (string * Z * Z)) (x : pynum)
    (label : string) :
  scan_sections sections x = Some label ->
  exists start end_ : Z,
    In (label, start, end_) sections
    /\ int_le_num start x = true /\ num_le_int x end_ = true.
Proof.
  induction sections as [|[[l a] b] rest IH]; simpl; [discriminate|].
  destruct (int_le_num a x && num_le_int x b) eqn:E.
  - intros [= <-]. apply andb_true_iff in E as [E1 E2].
    exists a, b. auto.
  - intros H. destruct (IH H) as (a' & b' & Hin & H1 & H2).
    exists a', b'. auto.
Qed.

Lemma bounds_exact (a b : Z) (x : pynum) :
  int_le_num a x = true -> num_le_int x b = true ->
  exists q : Q, num_exact x = Some q
                /\ (inject_Z a <= q)%Q /\ (q <= inject_Z b)%Q.
Proof.
  destruct x as [z|f]; simpl.
  - intros H1 H2. exists (inject_Z z). rewrite <- !Zle_Qle. split; [reflexivity|lia].
  - unfold exact_ratio. destruct (float_exact f) as [|neg|neg q]; try discriminate.
    + destruct neg; discriminate.
    + intros H1 H2. exists (xreal_signed neg q).
      split; [reflexivity|]. split; apply Qle_bool_iff; assumption.
Qed.

Lemma wrap_day_id (q : Q) :
  (0 <= q)%Q -> (q < inject_Z 86400)%Q -> (wrap_day q == q)%Q.
Proof.
  intros H0 H1. unfold wrap_day.
  assert (Hf : Qfloor (q / inject_Z 86400) = 0).
  { assert (Hd0 : (0 <= q / inject_Z 86400)%Q).
    { apply Qle_shift_div_l; [reflexivity|]. rewrite Qmult_0_l. exact H0. }
    assert (Hd1 : (q / inject_Z 86400 < 1)%Q).
    { apply Qlt_shift_div_r; [reflexivity|]. rewrite Qmult_1_l. exact H1. }
    pose proof (Qfloor_le (q / inject_Z 86400)) as Hlo.
    pose proof (Qlt_floor (q / inject_Z 86400)) as Hhi.
    assert (Qfloor (q / inject_Z 86400) < 1).
    { rewrite Zlt_Qlt. eapply Qle_lt_trans; eassumption. }
    assert (-1 < Qfloor (q / inject_Z 86400)).
    { assert (Hx : (inject_Z 0 < inject_Z (Qfloor (q / inject_Z 86400) + 1))%Q)
        by (eapply Qle_lt_trans; eassumption).
      rewrite <- Zlt_Qlt in Hx. lia. }
    lia. }
  rewrite Hf. change (inject_Z (86400 * 0)) with 0%Q. ring.
Qed.

(** A value that [get_time_section] puts in a section lies in that
    section's interval, also after it is wrapped to one day. *)
Lemma get_time_section_sound (x : pynum) (label : string) :
  get_time_section x = Some label ->
  exists q : Q, num_exact x = Some q /\ in_section label q
                /\ in_section label (wrap_day q).
Proof.
  intros H. apply scan_sections_Some in H as (a & b & Hin & H1 & H2).
  destruct (bounds_exact a b x H1 H2) as (q & Hq & Ha & Hb).
  exists q. split; [exact Hq|].
  assert (Hday : 0 <= a /\ b < 86400).
  { simpl in Hin.
    repeat (destruct Hin as [Hin|Hin]; [injection Hin as _ <- <-; lia|]).
    destruct Hin. }
  split; [exists a, b; auto|].
  exists a, b. split; [exact Hin|].
  assert (Hid : (wrap_day q == q)%Q).
  { apply wrap_day_id.
    - eapply Qle_trans; [|exact Ha].
      change (inject_Z 0 <= inject_Z a)%Q. rewrite <- Zle_Qle. lia.
    - eapply Qle_lt_trans; [exact Hb|]. rewrite <- Zlt_Qlt. lia. }
  rewrite Hid. auto.
Qed.

(** ** Buckets *)

Lemma bucket_empty (interface section : string) (values : list float) :
  bucket empty_buckets interface section = Ok values -> values = [].
Proof.
  unfold bucket, empty_buckets, empty_sections. simpl.
  intros H.
  repeat match type of H with
         | context [<[?k := ?v]> ?m !! ?i] =>
             destruct (decide (k = i));
             [subst; rewrite lookup_insert_eq in H
             |rewrite lookup_insert_ne in H by assumption]
         end; rewrite ?lookup_empty in H; congruence.
Qed.

Lemma bucket_append_elem (data data' : buckets) (i s i' s' : string)
    (t v : float) (values' : list float) :
  bucket_append data i s t = Ok data' ->
  bucket data' i' s' = Ok values' -> In v values' ->
  (exists values, bucket data i' s' = Ok values /\ In v values)
  \/ (i' = i /\ s' = s /\ v = t).
Proof.
  unfold bucket_append, bucket.
  destruct (data !! i) as [m|] eqn:Hm; [|discriminate].
  destruct (m !! s) as [l|] eqn:Hl; [|discriminate].
  intros [= <-].
  destruct (decide (i = i')) as [<-|Hi].
  - rewrite lookup_insert_eq, Hm.
    destruct (decide (s = s')) as [<-|Hs].
    + rewrite lookup_insert_eq, Hl. intros [= <-] Hv.
      apply in_app_or in Hv as [Hv|[<-|[]]]; [left; eauto|right; auto].
    + rewrite lookup_insert_ne by assumption.
      destruct (m !! s') as [l'|]; [|discriminate].
      intros [= <-] Hv. left; eauto.
  - rewrite lookup_insert_ne by assumption.
    destruct (data !! i') as [m'|]; [|discriminate].
    destruct (m' !! s') as [l'|]; [|discriminate].
    intros [= <-] Hv. left; eauto.
Qed.

(** ** Statistics text *)

(** C7: for the empty list [calc_stats] returns the nine characters
    [0.0 ± 0.0]. *)
Theorem calc_stats_empty :
  exists text : string,
    calc_stats [] = Ok text
    /\ text = "0.0 " +:+ PLUS_MINUS +:+ " 0.0"
    /\ map nat_of_ascii (list_ascii_of_string text)
       = [48; 46; 48; 32; 177; 32; 48; 46; 48]%nat.
Proof. eexists. split; [reflexivity|]. split; reflexivity. Qed.

(** ** Samples past midnight *)

(** C2: the seconds since midnight are the plain sum, never taken modulo
    86400.  For a run that starts
    at 23:59:50 the sample at offset 20 is at 86410 seconds, which has no
    section, and it leaves every bucket as it was; a directory with one such
    run yields the empty buckets. *)
Theorem midnight_overflow_dropped :
  (forall (start_time : datetime) (offset : Z),
      seconds_since_midnight start_time (PyInt offset)
      = Ok (NInt (hour start_time * 3600 + minute start_time * 60
                  + second start_time + offset)))
  /\ (forall (y mo d : Z) (interface : string) (data : buckets) (throughput : float),
      let start_time := mk_datetime y mo d 23 59 50 in
      seconds_since_midnight start_time (PyInt 20) = Ok (NInt 86410)
      /\ get_time_section (NInt 86410) = None
      /\ add_sample start_time interface data (PyInt 20, throughput) = Ok data)
  /\ (let fs := one_text_file "/r" "wlan0_qperf_throughput_rtt_20250605_235950.txt"
                  ["second 20: 50.0 mbit/s"] in
      parse_qperf_file fs "/r/wlan0_qperf_throughput_rtt_20250605_235950.txt"
      = ((Some (mk_datetime 2025 6 5 23 59 50), [(PyInt 20, 50%float)]), [])
      /\ exists data : buckets,
           process_files fs "/r" (parse_qperf_file fs) "qperf_throughput_rtt"
           = ([], Ok data)
           /\ bucket_table data = bucket_table empty_buckets).
Proof.
  split; [reflexivity|]. split.
  - intros. split; [reflexivity|]. split; reflexivity.
  - split; [vm_compute; reflexivity|].
    match goal with
    | |- exists data, ?r = _ /\ _ =>
        assert (H : outcome r = Some ([], bucket_table empty_buckets))
          by (vm_compute; reflexivity);
        destruct r as [printed [data|e]]; [|discriminate]
    end.
    cbv [outcome] in H. exists data. split; congruence.
Qed.

(** ** Where the values of a bucket come from *)

Section Provenance.
Variable fs : filesystem.
Variable parse_func : string -> run * list out.
Variables directory file_pattern : string.
Variable filenames : list string.
Hypothesis Hlist : listdir fs directory = Ok filenames.

Local Abbreviation from_runs :=
  (all_from_runs (sample_of_parsed_run fs directory parse_func file_pattern)).

Lemma add_samples_from_run (filename : string) (start_time : datetime)
    (interface : string) (throughputs : list sample) (printed : list out) :
  In filename filenames ->
  contains file_pattern filename = true ->
  interface_of filename = Some interface ->
  parse_func (path_join directory filename)
  = ((Some start_time, throughputs), printed) ->
  forall (rest : list sample) (data data' : buckets),
    (forall s, In s rest -> In s throughputs) ->
    from_runs data ->
    add_samples start_time interface data rest = Ok data' ->
    from_runs data'.
Proof.
  intros Hin Hpat Hif Hparse.
  induction rest as [|[sec t] rest IH]; simpl; intros data data' Hsub Hinv.
  - intros [= <-]. exact Hinv.
  - unfold add_sample at 1. simpl.
    destruct (seconds_since_midnight start_time sec) as [x|e] eqn:Hx;
      simpl; [|discriminate].
    destruct (get_time_section x) as [section|] eqn:Hsec.
    + destruct (bucket_append data interface section t) as [d1|e] eqn:Hd1;
        simpl; [|discriminate].
      intros Hrest. eapply IH; [auto| |exact Hrest].
      intros i s values v Hb Hv.
      destruct (bucket_append_elem _ _ _ _ _ _ _ _ _ Hd1 Hb Hv)
        as [(values0 & Hb0 & Hv0)|(-> & -> & ->)].
      * eapply Hinv; eassumption.
      * destruct (get_time_section_sound _ _ Hsec) as (q & Hq & _ & Hw).
        exists filenames, filename, start_time, throughputs, printed, sec, x, q.
        repeat split; auto.
    + simpl. intros Hrest. eapply IH; [auto|exact Hinv|exact Hrest].
Qed.

Lemma process_entries_from_runs :
  forall (rest : list string) (data data' : buckets) (printed : list out),
    (forall f, In f rest -> In f filenames) ->
    from_runs data ->
    process_entries parse_func directory file_pattern data rest
    = (printed, Ok data') ->
    from_runs data'.
Proof.
  induction rest as [|filename rest IH]; simpl; intros data data' printed Hsub Hinv.
  - intros [= _ <-]. exact Hinv.
  - unfold process_entry.
    destruct (contains file_pattern filename) eqn:Hpat.
    + destruct (parse_func (path_join directory filename))
        as [[start_time throughputs] pr] eqn:Hparse.
      destruct start_time as [t|].
      * destruct (interface_of filename) as [interface|] eqn:Hif.
        -- destruct (add_samples t interface data throughputs) as [d1|e] eqn:Hd1;
             [|discriminate].
           destruct (process_entries parse_func directory file_pattern d1 rest)
             as [pr' r] eqn:Hrest.
           intros [= _ ->]. eapply IH; [auto| |exact Hrest].
           eapply add_samples_from_run; eauto.
        -- destruct (process_entries parse_func directory file_pattern data rest)
             as [pr' r] eqn:Hrest.
           intros [= _ ->]. eapply IH; [auto|exact Hinv|exact Hrest].
      * destruct (process_entries parse_func directory file_pattern data rest)
          as [pr' r] eqn:Hrest.
        intros [= _ ->]. eapply IH; [auto|exact Hinv|exact Hrest].
    + destruct (process_entries parse_func directory file_pattern data rest)
        as [pr' r] eqn:Hrest.
      intros [= _ ->]. eapply IH; [auto|exact Hinv|exact Hrest].
Qed.
End Provenance.

(** C5: every value in a bucket of the mapping [process_files] returns is a
    sample of a parsed run whose second since midnight, wrapped to one day,
    lies in the bucket's section; a run that did not parse gives nothing. *)
Theorem bucket_values_from_parsed_runs (fs : filesystem) (directory : string)
    (parse_func : string -> run * list out) (file_pattern : string)
    (printed : list out) (data : buckets) :
  process_files fs directory parse_func file_pattern = (printed, Ok data) ->
  forall (interface section : string) (values : list float) (throughput : float),
    bucket data interface section = Ok values ->
    In throughput values ->
    sample_of_parsed_run fs directory parse_func file_pattern
      interface section throughput.
Proof.
  unfold process_files.
  destruct (listdir fs directory) as [filenames|e] eqn:Hlist; [|discriminate].
  intros Hrun.
  eapply (process_entries_from_runs fs parse_func directory file_pattern
            filenames Hlist filenames empty_buckets data printed); auto.
  intros i s values v Hb Hv. apply bucket_empty in Hb. subst. destruct Hv.
Qed.

Lemma bucket_values_from_parsed_runs_witness :
  sample_of_parsed_run iperf_fs_100 "/r"
    (parse_iperf_file (fun _ => None) iperf_fs_100) "iperf3_throughput"
    "wlan1" "12h-17h59" 100%float.
Proof.
  apply (bucket_values_from_parsed_runs iperf_fs_100 "/r"
           (parse_iperf_file (fun _ => None) iperf_fs_100) "iperf3_throughput"
           [] buckets_100 ltac:(vm_compute; reflexivity)
           "wlan1" "12h-17h59" [100%float] 100%float
           ltac:(vm_compute; reflexivity)).
  left. reflexivity.
Defined.

(** ** Splitting and joining text *)

#[local] Arguments String.append : simpl nomatch.

Lemma append_assoc (a b c : string) : (a +:+ b) +:+ c = a +:+ (b +:+ c).
Proof. induction a as [|x a IH]; simpl; [reflexivity|]. f_equal. exact IH. Qed.

Lemma append_nil_r (a : string) : a +:+ "" = a.
Proof. induction a as [|x a IH]; simpl; [reflexivity|]. f_equal. exact IH. Qed.

Lemma free_of_append (sep : ascii) (a b : string) :
  free_of sep (a +:+ b) = free_of sep a && free_of sep b.
Proof.
  induction a as [|x a IH]; simpl; [reflexivity|].
  rewrite IH. now rewrite andb_assoc.
Qed.

Lemma split_on_free (sep : ascii) (s : string) :
  free_of sep s = true -> split_on sep s = [s].
Proof.
  induction s as [|c s IH]; simpl; [reflexivity|].
  intros H. apply andb_true_iff in H as [Hc Hs].
  apply negb_true_iff in Hc. rewrite Hc, (IH Hs). reflexivity.
Qed.

Lemma split_on_cons (sep : ascii) (a b : string) :
  free_of sep a = true ->
  split_on sep (a +:+ String sep b) = a :: split_on sep b.
Proof.
  induction a as [|c a IH]; simpl.
  - intros _. now rewrite Ascii.eqb_refl.
  - intros H. apply andb_true_iff in H as [Hc Ha].
    apply negb_true_iff in Hc. rewrite Hc, (IH Ha). reflexivity.
Qed.

Lemma split_on_not_nil (sep : ascii) (s : string) : split_on sep s <> [].
Proof.
  destruct s as [|c s]; simpl; [discriminate|].
  destruct (Ascii.eqb c sep); [discriminate|].
  destruct (split_on sep s); discriminate.
Qed.

(** The last part of a text with a separator is the last part of what
    follows the separator. *)
Lemma last_split_on_append (sep : ascii) (a b : string) :
  exists (w : string) (ws : list string),
    split_on sep (a +:+ String sep b) = w :: ws
    /\ ws <> [] /\ last ws = last (split_on sep b).
Proof.
  induction a as [|c a IH]; simpl.
  - rewrite Ascii.eqb_refl. exists "", (split_on sep b).
    split; [reflexivity|]. split; [apply split_on_not_nil|reflexivity].
  - destruct IH as (w & ws & Heq & Hne & Hlast). rewrite Heq.
    destruct (Ascii.eqb c sep).
    + exists "", (w :: ws). split; [reflexivity|]. split; [discriminate|].
      rewrite <- Hlast. destruct ws; [contradiction|reflexivity].
    + exists (String c w), ws. auto.
Qed.

Lemma basename_after_slash (a b : string) :
  free_of "/" b = true -> basename (a +:+ String "/" b) = b.
Proof.
  intros Hb. unfold basename.
  destruct (last_split_on_append "/" a b) as (w & ws & Heq & Hne & Hlast).
  rewrite Heq. replace (last (w :: ws)) with (last ws)
    by (destruct ws; [contradiction|reflexivity]).
  rewrite Hlast, (split_on_free _ _ Hb). reflexivity.
Qed.

Lemma ends_with_slash_split (a : string) :
  ends_with_slash a = true -> exists a', a = a' +:+ "/".
Proof.
  induction a as [|c a IH]; simpl; [discriminate|].
  destruct a as [|d a].
  - intros H. apply Ascii.eqb_eq in H. subst. exists "". reflexivity.
  - intros H. destruct (IH H) as [a' Ha']. exists (String c a').
    simpl. now rewrite <- Ha'.
Qed.

(** The file name of a path made by [os.path.join] from a directory and a
    name without a slash is that name. *)
Lemma basename_path_join (directory filename : string) :
  free_of "/" filename = true ->
  basename (path_join directory filename) = filename.
Proof.
  intros Hf. unfold path_join.
  assert (Hd : drop_prefix "/" filename = None).
  { destruct filename as [|c f]; [reflexivity|]. simpl in Hf.
    apply andb_true_iff in Hf as [Hc _]. apply negb_true_iff in Hc.
    change (drop_prefix "/" (String c f))
      with (if Ascii.eqb "/" c then drop_prefix "" f else None).
    rewrite Ascii.eqb_sym, Hc. reflexivity. }
  rewrite Hd.
  destruct (String.length directory =? 0)%nat eqn:Hlen.
  - destruct directory; [|discriminate]. simpl.
    unfold basename. rewrite (split_on_free _ _ Hf). reflexivity.
  - destruct (ends_with_slash directory) eqn:He; cbn [orb].
    + destruct (ends_with_slash_split _ He) as [a' ->].
      rewrite append_assoc. now apply basename_after_slash.
    + now apply basename_after_slash.
Qed.

(** ** One file in a directory *)

Lemma process_files_single (fs : filesystem) (directory file_pattern : string)
    (parse_func : string -> run * list out) (filename interface : string)
    (start_time : datetime) (throughputs : list sample) (printed : list out) :
  listdir fs directory = Ok [filename] ->
  contains file_pattern filename = true ->
  interface_of filename = Some interface ->
  parse_func (path_join directory filename)
  = ((Some start_time, throughputs), printed) ->
  process_files fs directory parse_func file_pattern
  = match add_samples start_time interface empty_buckets throughputs with
    | Ok data => ((printed ++ [])%list, Ok data)
    | Raise e => (printed, Raise e)
    end.
Proof.
  intros Hlist Hpat Hif Hparse. unfold process_files. rewrite Hlist.
  cbn [process_entries]. unfold process_entry. rewrite Hpat, Hparse, Hif.
  destruct (add_samples start_time interface empty_buckets throughputs);
    reflexivity.
Qed.


(** C8: a directory with the one file
    [wlan1_iperf3_throughput_20250605_120000.json] whose content is the one
    interval [{sum: {start: 0, bits_per_second: 100000000}}] gives the bucket
    [(wlan1, "12h-17h59")] the values [[100.0]] and leaves the others empty. *)
Theorem single_iperf_file_bucket (strptime_gmt : string -> option datetime)
    (fs : filesystem) (directory : string) :
  listdir fs directory = Ok [IPERF_NAME] ->
  json_load fs (path_join directory IPERF_NAME) = Ok iperf_doc_100 ->
  exists data : buckets,
    process_files fs directory (parse_iperf_file strptime_gmt fs)
      "iperf3_throughput" = ([], Ok data)
    /\ bucket_table data
       = bucket_table_100.
Proof.
  intros Hlist Hjson.
  assert (Hparse : parse_iperf_file strptime_gmt fs (path_join directory IPERF_NAME)
                   = ((Some (mk_datetime 2025 6 5 12 0 0), [(PyInt 0, 100%float)]), [])).
  { unfold parse_iperf_file, parse_iperf_body.
    rewrite basename_path_join by reflexivity. rewrite Hjson.
    vm_compute. reflexivity. }
  rewrite (process_files_single fs directory "iperf3_throughput" _ IPERF_NAME
             "wlan1" _ _ _ Hlist eq_refl eq_refl Hparse).
  match goal with
  | |- context [add_samples ?t ?i ?d ?l] =>
      assert (H : outcome ([], add_samples t i d l)
                  = Some ([], bucket_table_100))
        by (vm_compute; reflexivity);
      destruct (add_samples t i d l) as [data|e]; [|discriminate]
  end.
  cbv [outcome] in H. exists data. split; [reflexivity|congruence].
Qed.

Lemma single_iperf_file_bucket_witness :
  exists data : buckets,
    process_files iperf_fs_100 "/r" (parse_iperf_file (fun _ => None) iperf_fs_100)
      "iperf3_throughput" = ([], Ok data)
    /\ bucket_table data
       = bucket_table_100.
Proof.
  apply (single_iperf_file_bucket (fun _ => None) iperf_fs_100 "/r"); reflexivity.
Defined.



(** X2: a directory entry whose name has neither [wlan0] nor [wlan1] in it
    leaves every bucket as it was, whatever the parser found in it. *)
Theorem no_interface_no_samples (parse_func : string -> run * list out)
    (directory file_pattern : string) (data : buckets) (filename : string) :
  contains "wlan0" filename = false ->
  contains "wlan1" filename = false ->
  snd (process_entry parse_func directory file_pattern data filename) = Ok data.
Proof.
  intros H0 H1. unfold process_entry, interface_of. rewrite H0, H1.
  destruct (contains file_pattern filename); [|reflexivity].
  destruct (parse_func (path_join directory filename)) as [[[t|] l] pr];
    reflexivity.
Qed.

Lemma no_interface_no_samples_witness :
  snd (process_entry (parse_qperf_file qperf_fs_50_60) (QPERF_DIR "/home/u")
         "qperf_throughput_rtt" empty_buckets
         "eth0_qperf_throughput_rtt_20250605_000000.txt")
  = Ok empty_buckets.
Proof.
  apply (no_interface_no_samples (parse_qperf_file qperf_fs_50_60));
    reflexivity.
Defined.

(** ** What the parsers return *)

(** A parser returns a start time and samples and prints nothing, or returns
    the failure pair and prints one diagnostic with the exception. *)
Lemma guarded_cases (text : string) (body : res (datetime * list sample)) :
  (exists t l, body = Ok (t, l) /\ guarded text body = ((Some t, l), []))
  \/ (exists e, body = Raise e
                /\ guarded text body = ((None, []), [PrintedError text e])).
Proof.
  destruct body as [[t l]|e]; [left|right]; eauto.
Qed.

Lemma parse_qperf_file_no_file (fs : filesystem) (filepath : string) (e : exn) :
  read_lines fs filepath = Raise e ->
  exists e', parse_qperf_file fs filepath
             = ((None, []),
                [PrintedError ("Error parsing qperf file " +:+ filepath +:+ ": ") e']).
Proof.
  intros H. unfold parse_qperf_file, parse_qperf_body. rewrite H.
  destruct (filename_stamp ".txt" (basename filepath)); simpl; eauto.
Qed.

Lemma parse_qperf_file_bad_stamp (fs : filesystem) (filepath : string) (e : exn) :
  filename_stamp ".txt" (basename filepath) = Raise e ->
  parse_qperf_file fs filepath
  = ((None, []),
     [PrintedError ("Error parsing qperf file " +:+ filepath +:+ ": ") e]).
Proof.
  intros H. unfold parse_qperf_file, parse_qperf_body. rewrite H. reflexivity.
Qed.

Lemma parse_iperf_file_no_file (strptime_gmt : string -> option datetime)
    (fs : filesystem) (filepath : string) (e : exn) :
  json_load fs filepath = Raise e ->
  parse_iperf_file strptime_gmt fs filepath
  = ((None, []),
     [PrintedError ("Error parsing iperf3 file " +:+ filepath +:+ ": ") e]).
Proof.
  intros H. unfold parse_iperf_file, parse_iperf_body. rewrite H. reflexivity.
Qed.

(** X3: the start time of an iperf3 run is the time stamp of the file name
    when the JSON time stamp is missing or is a text, whatever the text
    says and whether or not it parses. *)
Lemma iperf_start_time_filename (strptime_gmt : string -> option datetime)
    (data : pyval) (filename : string) :
  json_time_field data = Raise KeyError
  \/ (exists s, json_time_field data = Ok (PyStr s)) ->
  iperf_start_time strptime_gmt data filename = filename_stamp ".json" filename.
Proof.
  unfold iperf_start_time. intros [H|[s H]]; rewrite H; simpl.
  - reflexivity.
  - destruct (strptime_gmt s); simpl; [|reflexivity].
    destruct (filename_stamp ".json" filename) as [t|e]; simpl; [reflexivity|].
    destruct (key_or_value_error e); reflexivity.
Qed.

Lemma iperf_start_time_filename_witness :
  iperf_start_time (fun _ => None)
    (PyDict [("start", PyDict [("timestamp",
                                PyDict [("time", PyStr "not a date")])])])
    IPERF_NAME
  = filename_stamp ".json" IPERF_NAME.
Proof.
  apply (iperf_start_time_filename (fun _ => None)).
  right. exists "not a date". reflexivity.
Defined.

Lemma iperf_bad_stamp (strptime_gmt : string -> option datetime)
    (fs : filesystem) (filepath : string) (data : pyval) :
  json_load fs filepath = Ok data ->
  filename_stamp ".json" (basename filepath) = Raise ValueError ->
  exists e, parse_iperf_file strptime_gmt fs filepath
            = ((None, []),
               [PrintedError ("Error parsing iperf3 file " +:+ filepath +:+ ": ") e]).
Proof.
  intros Hd Hs. unfold parse_iperf_file, parse_iperf_body. rewrite Hd. simpl.
  unfold iperf_start_time. rewrite Hs.
  destruct (json_time_field data) as [v|e]; simpl.
  - destruct (py_strptime_gmt strptime_gmt v) as [t|e]; simpl; eauto.
    destruct (key_or_value_error e); simpl; eauto.
  - destruct (key_or_value_error e); simpl; eauto.
Qed.

(** C6: with a valid time stamp in the file name and a JSON time stamp that
    is a number, [parse_iperf_file] does not fall back to the file name: it
    ends in the failure pair with a [TypeError]. *)
Theorem iperf_number_time_is_failure (strptime_gmt : string -> option datetime) :
  filename_stamp ".json" IPERF_NAME = Ok (mk_datetime 2025 6 5 12 0 0)
  /\ json_time_field iperf_doc_time_0 = Ok (PyInt 0)
  /\ parse_iperf_file strptime_gmt iperf_fs_time_0 (path_join "/r" IPERF_NAME)
     = ((None, []),
        [PrintedError ("Error parsing iperf3 file " +:+ path_join "/r" IPERF_NAME
                     +:+ ": ") TypeError]).
Proof.
  split; [vm_compute; reflexivity|]. split; vm_compute; reflexivity.
Qed.

(** C4: an interval whose [start] is the text ["x"] is not a parse failure:
    [parse_iperf_file] returns the run with that offset, the addition in
    [process_files] then raises a [TypeError] that nothing catches, and the
    file after it is never read. *)
Theorem iperf_text_offset_escapes (strptime_gmt : string -> option datetime) :
  parse_iperf_file strptime_gmt iperf_fs_start_x
    (path_join (IPERF_DIR "/home/u") IPERF_NAME_X)
  = ((Some (mk_datetime 2025 6 5 11 0 0), [(PyStr "x", 100%float)]), [])
  /\ raised (process_files iperf_fs_start_x (IPERF_DIR "/home/u")
               (parse_iperf_file strptime_gmt iperf_fs_start_x)
               "iperf3_throughput") = Some TypeError
  /\ main strptime_gmt iperf_fs_start_x "/home/u" = ([], Raise TypeError).
Proof.
  split; [vm_compute; reflexivity|]. split; vm_compute; reflexivity.
Qed.

(** ** A token that is no float *)

Lemma scan_lines_bad_token (lines : list string) (line g1 g2 : string) (e : exn) :
  In line lines -> re_search line = Some (g1, g2) -> py_float g2 = Raise e ->
  exists e', scan_lines lines = Raise e'.
Proof.
  intros Hin Hm Hf. induction lines as [|l rest IH]; [destruct Hin|].
  simpl. destruct Hin as [->|Hin].
  - rewrite Hm. destruct (py_int g1); simpl; [|eauto]. rewrite Hf. simpl. eauto.
  - destruct (IH Hin) as [e' He']. rewrite He'.
    destruct (re_search l) as [[a b]|]; [|eauto].
    destruct (py_int a); simpl; [|eauto].
    destruct (py_float b); simpl; eauto.
Qed.

(** C10: when a line of a qperf file matches the pattern and its throughput
    token is not a float literal, [parse_qperf_file] gives no start time and
    no samples at all, and prints one diagnostic. *)
Theorem qperf_bad_token_discards_file (fs : filesystem) (filepath : string)
    (lines : list string) (line g1 g2 : string) :
  read_lines fs filepath = Ok lines ->
  In line lines ->
  re_search line = Some (g1, g2) ->
  py_float g2 = Raise ValueError ->
  exists e,
    parse_qperf_file fs filepath
    = ((None, []),
       [PrintedError ("Error parsing qperf file " +:+ filepath +:+ ": ") e]).
Proof.
  intros Hread Hin Hm Hf. unfold parse_qperf_file, parse_qperf_body.
  destruct (filename_stamp ".txt" (basename filepath)) as [t|e]; simpl; [|eauto].
  rewrite Hread. simpl.
  destruct (scan_lines_bad_token _ _ _ _ _ Hin Hm Hf) as [e' ->]. simpl. eauto.
Qed.

Lemma qperf_bad_token_discards_file_witness :
  re_search "second 1: 1.2.3 mbit/s" = Some ("1", "1.2.3")
  /\ py_float "1.2.3" = Raise ValueError
  /\ scan_lines ["second 0: 50.0 mbit/s"] = Ok [(PyInt 0, 50%float)]
  /\ exists e,
       parse_qperf_file qperf_fs_bad_token (path_join "/r" QPERF_NAME)
       = ((None, []),
          [PrintedError ("Error parsing qperf file " +:+ path_join "/r" QPERF_NAME
                       +:+ ": ") e]).
Proof.
  split; [reflexivity|]. split; [reflexivity|]. split; [vm_compute; reflexivity|].
  apply (qperf_bad_token_discards_file qperf_fs_bad_token (path_join "/r" QPERF_NAME)
           ["second 0: 50.0 mbit/s"; "second 1: 1.2.3 mbit/s"; "second 2: 60.0 mbit/s"]
           "second 1: 1.2.3 mbit/s" "1" "1.2.3").
  - reflexivity.
  - right. left. reflexivity.
  - reflexivity.
  - reflexivity.
Defined.

(** ** The statistics of a list that is not empty *)

Lemma sum_sq_from_expand (mu : Q) (xs : list Q) :
  (sum_sq_from mu xs
   == fold_right Qplus 0 (map (fun x => x * x) xs)
      - (2 # 1) * mu * fold_right Qplus 0 xs
      + inject_Z (Z.of_nat (length xs)) * mu * mu)%Q.
Proof.
  unfold sum_sq_from. induction xs as [|x xs IH].
  - simpl. ring.
  - cbn [map fold_right length]. rewrite IH.
    rewrite Nat2Z.inj_succ. unfold Z.succ. rewrite inject_Z_plus. ring.
Qed.

(** The sum of squared deviations that [stdev] divides by [n - 1] is the sum
    of the squares of the distances to the exact mean. *)
Lemma sum_sq_dev_mean (xs : list Q) :
  xs <> [] -> (sum_sq_dev xs == sum_sq_from (mean_Q xs) xs)%Q.
Proof.
  intros Hne. rewrite sum_sq_from_expand. unfold sum_sq_dev, mean_Q.
  assert (Hn : ~ (inject_Z (Z.of_nat (length xs)) == 0)%Q).
  { destruct xs as [|x xs]; [contradiction|].
    intros H. unfold Qeq in H. cbn [Qnum Qden inject_Z length] in H. lia. }
  field. exact Hn.
Qed.

Lemma stdev_unbiased (data : list float) (sd : float) :
  stdev data = Ok sd ->
  exists (xs : list Q) (mss : Q),
    mapM (fun x => match exact_ratio x with
                   | Some q => Ok q
                   | None => Raise AttributeError
                   end) data = Ok xs
    /\ (mss == sum_sq_from (mean_Q xs) xs
               / inject_Z (Z.of_nat (length xs) - 1))%Q
    /\ float_sqrt_of_frac (Qnum mss) (Z.pos (Qden mss)) = Ok sd.
Proof.
  unfold stdev. destruct (length data <? 2)%nat eqn:Hlen; [discriminate|].
  match goal with
  | |- context [mapM ?f data] => destruct (mapM f data) as [xs|e] eqn:Hxs
  end; [|discriminate].
  intros H. exists xs. eexists. split; [reflexivity|]. split; [|exact H].
  rewrite Qred_correct.
  assert (Hne : xs <> []).
  { intros ->. destruct data as [|x data]; [discriminate|].
    simpl in Hxs. destruct (exact_ratio x); [|discriminate].
    simpl in Hxs. destruct (mapM _ data); discriminate. }
  rewrite (sum_sq_dev_mean xs Hne). reflexivity.
Qed.

(** C3, as the code has it: for a list that is not empty [calc_stats] prints
    the mean and the standard deviation, each rounded to two decimals and
    then written as Python writes a float (so [50.0], not [50.00]); the
    standard deviation is [0.0] for one value and the [n - 1] sample standard
    deviation of [statistics.stdev] from two values on. *)
Theorem calc_stats_nonempty (values : list float) (n : float) :
  values <> [] ->
  float_of_int (Z.of_nat (length values)) = Ok n ->
  let mean := (py_sum values / n)%float in
  (length values = 1%nat ->
   calc_stats values
   = Ok (py_repr (py_round2 mean) +:+ " " +:+ PLUS_MINUS +:+ " 0.0"))
  /\ ((2 <= length values)%nat ->
      forall sd : float,
        stdev values = Ok sd ->
        calc_stats values
        = Ok (py_repr (py_round2 mean) +:+ " " +:+ PLUS_MINUS +:+ " "
              +:+ py_repr (py_round2 sd))
        /\ exists (xs : list Q) (mss : Q),
             mapM (fun x => match exact_ratio x with
                            | Some q => Ok q
                            | None => Raise AttributeError
                            end) values = Ok xs
             /\ (mss == sum_sq_from (mean_Q xs) xs
                        / inject_Z (Z.of_nat (length xs) - 1))%Q
             /\ float_sqrt_of_frac (Qnum mss) (Z.pos (Qden mss)) = Ok sd).
Proof.
  intros Hne Hn mean. destruct values as [|x values]; [contradiction|].
  unfold calc_stats. rewrite Hn. cbn [mbind res_bind]. fold mean. split.
  - intros Hlen. replace (1 <? length (x :: values))%nat with false
      by (rewrite Hlen; reflexivity).
    reflexivity.
  - intros Hlen sd Hsd.
    replace (1 <? length (x :: values))%nat with true
      by (symmetry; apply Nat.ltb_lt; lia).
    rewrite Hsd. split; [reflexivity|]. apply stdev_unbiased. exact Hsd.
Qed.

Lemma calc_stats_nonempty_witness :
  calc_stats [50%float; 60%float] = Ok ("55.0 " +:+ PLUS_MINUS +:+ " 7.07")
  /\ calc_stats [50%float] = Ok ("50.0 " +:+ PLUS_MINUS +:+ " 0.0").
Proof.
  split.
  - destruct (calc_stats_nonempty [50%float; 60%float] 2%float) as [_ H];
      [discriminate|vm_compute; reflexivity|].
    destruct (H ltac:(simpl; lia) 0x1.c48c6001f0acp+2%float
                ltac:(vm_compute; reflexivity)) as [-> _].
    vm_compute. reflexivity.
  - destruct (calc_stats_nonempty [50%float] 1%float) as [H _];
      [discriminate|vm_compute; reflexivity|].
    rewrite (H eq_refl). vm_compute. reflexivity.
Defined.

(** C3, as it is stated, fails at the list [[50.0]]: the code prints
    [50.0 ± 0.0] where the two-decimal format prints [50.00 ± 0.00]. *)
Lemma calc_stats_not_two_decimals :
  calc_stats [50%float] = Ok ("50.0 " +:+ PLUS_MINUS +:+ " 0.0")
  /\ calc_stats_2f [50%float] = Ok ("50.00 " +:+ PLUS_MINUS +:+ " 0.00")
  /\ calc_stats [50%float] <> calc_stats_2f [50%float].
Proof.
  split; [vm_compute; reflexivity|]. split; [vm_compute; reflexivity|].
  vm_compute. discriminate.
Qed.

(** ** The characters of the statistics text *)

Lemma all_chars_append (p : ascii -> bool) (a b : string) :
  all_chars p (a +:+ b) = all_chars p a && all_chars p b.
Proof.
  induction a as [|x a IH]; simpl; [reflexivity|].
  rewrite IH. now rewrite andb_assoc.
Qed.

Lemma all_chars_substring (p : ascii -> bool) (s : string) :
  all_chars p s = true ->
  forall n m : nat, all_chars p (substring n m s) = true.
Proof.
  induction s as [|c s IH]; intros H n m.
  - destruct n, m; reflexivity.
  - simpl in H. apply andb_true_iff in H as [Hc Hs].
    destruct n as [|n]; [destruct m as [|m]|]; simpl.
    + reflexivity.
    + rewrite Hc. now apply IH.
    + now apply IH.
Qed.

Lemma plain_zeros (n : nat) : plain (zeros n) = true.
Proof. induction n as [|n IH]; [reflexivity|]. exact IH. Qed.

Lemma plain_uint (u : Decimal.uint) : plain (NilEmpty.string_of_uint u) = true.
Proof. induction u as [|u IH|u IH|u IH|u IH|u IH|u IH|u IH|u IH|u IH|u IH]; [reflexivity|exact IH..]. Qed.

Lemma plain_str_int (z : Z) : plain (str_int z) = true.
Proof.
  unfold str_int, NilZero.string_of_uint.
  destruct (N.to_uint (Z.to_N z)); [reflexivity|apply plain_uint..].
Qed.

Lemma plain_append (a b : string) :
  plain a = true -> plain b = true -> plain (a +:+ b) = true.
Proof. unfold plain. intros Ha Hb. now rewrite all_chars_append, Ha, Hb. Qed.

Lemma plain_cons (c : ascii) (s : string) :
  plain_char c = true -> plain s = true -> plain (String c s) = true.
Proof. unfold plain. simpl. intros -> ->. reflexivity. Qed.

Lemma plain_str_exp (e : Z) : plain (str_exp e) = true.
Proof.
  unfold str_exp. apply plain_append; [destruct (e <? 0); reflexivity|].
  apply plain_append; [destruct (Z.abs e <? 10); reflexivity|].
  apply plain_str_int.
Qed.

Lemma plain_layout_repr (ds : string) (decpt : Z) :
  plain ds = true -> plain (layout_repr ds decpt) = true.
Proof.
  intros Hds. unfold layout_repr.
  destruct ((decpt <=? -4) || (16 <? decpt)).
  - destruct ds as [|c rest]; [reflexivity|].
    unfold plain in Hds. simpl in Hds. apply andb_true_iff in Hds as [Hc Hrest].
    apply plain_append.
    + apply plain_cons; [exact Hc|].
      destruct (String.length rest =? 0)%nat; [reflexivity|].
      apply plain_append; [reflexivity|exact Hrest].
    + apply plain_append; [reflexivity|apply plain_str_exp].
  - destruct (decpt <=? 0).
    + apply plain_append; [reflexivity|].
      apply plain_append; [apply plain_zeros|exact Hds].
    + destruct (Z.of_nat (String.length ds) <=? decpt).
      * apply plain_append; [exact Hds|].
        apply plain_append; [apply plain_zeros|reflexivity].
      * apply plain_append; [now apply all_chars_substring|].
        apply plain_append; [reflexivity|now apply all_chars_substring].
Qed.

(** The text of a float has no comma, line feed or quote. *)
Lemma plain_py_repr (x : float) : plain (py_repr x) = true.
Proof.
  unfold py_repr. destruct (Prim2SF x) as [s|s| |s m e].
  - destruct s; reflexivity.
  - destruct s; reflexivity.
  - reflexivity.
  - destruct (if 0 <=? e then (Z.pos m * 2 ^ e, 1) else (Z.pos m, 2 ^ (- e)))
      as [vn vd].
    destruct (shortest_from 17 (abs x) vn vd (decpt_of vn vd) 1) as [c n].
    destruct (if c =? 10 ^ n then (1, decpt_of vn vd + 1) else (c, decpt_of vn vd))
      as [c' decpt'].
    apply plain_append; [destruct s; reflexivity|].
    apply plain_layout_repr, plain_str_int.
Qed.

Lemma plain_calc_stats (values : list float) (text : string) :
  calc_stats values = Ok text -> plain text = true.
Proof.
  unfold calc_stats. destruct values as [|x values].
  - intros [= <-]. reflexivity.
  - destruct (float_of_int (Z.of_nat (length (x :: values)))) as [n|e];
      [|discriminate].
    cbn [mbind res_bind].
    destruct (if (1 <? length (x :: values))%nat then stdev (x :: values)
              else Ok 0%float) as [sd|e]; [|discriminate].
    intros [= <-].
    repeat (apply plain_append; [try reflexivity; apply plain_py_repr|]).
    apply plain_py_repr.
Qed.

Lemma plain_free_of (sep : ascii) (s : string) :
  plain_char sep = false -> plain s = true -> free_of sep s = true.
Proof.
  intros Hsep. induction s as [|c s IH]; [reflexivity|].
  unfold plain. simpl. intros H. apply andb_true_iff in H as [Hc Hs].
  rewrite (IH Hs), andb_true_r. apply negb_true_iff.
  destruct (Ascii.eqb_spec c sep) as [->|]; [congruence|reflexivity].
Qed.

Lemma row_cells_plain (qperf_data iperf_data : buckets) (section : string)
    (cells : list string) :
  row_cells qperf_data iperf_data section = Ok cells ->
  length cells = 4%nat /\ Forall (fun c => plain c = true) cells.
Proof.
  unfold row_cells.
  repeat match goal with
         | |- context [bucket ?d ?i ?s ≫= calc_stats] =>
             let H := fresh "H" in
             destruct (bucket d i s) as [?|?]; cbn [mbind res_bind];
             [|discriminate];
             match goal with
             | |- context [calc_stats ?l] =>
                 destruct (calc_stats l) eqn:H; [|discriminate];
                 apply plain_calc_stats in H
             end
         end.
  intros [= <-]. split; [reflexivity|]. repeat constructor; assumption.
Qed.

(** ** Writing the CSV and reading it back *)

Lemma split_join (fields : list string) :
  fields <> [] ->
  Forall (fun f => free_of COMMA f = true) fields ->
  split_on COMMA (join_with "," fields) = fields.
Proof.
  induction fields as [|a rest IH]; [contradiction|].
  intros _ Hall. inversion Hall as [|? ? Ha Hrest]; subst.
  destruct rest as [|b rest].
  - simpl. now apply split_on_free.
  - change (join_with "," (a :: b :: rest))
      with (a +:+ String COMMA (join_with "," (b :: rest))).
    rewrite (split_on_cons _ _ _ Ha). f_equal. apply IH; [discriminate|exact Hrest].
Qed.

Lemma free_of_join (sep : ascii) (fields : list string) :
  free_of sep "," = true ->
  Forall (fun f => free_of sep f = true) fields ->
  free_of sep (join_with "," fields) = true.
Proof.
  intros Hsep. induction fields as [|a rest IH]; [reflexivity|].
  intros Hall. inversion Hall as [|? ? Ha Hrest]; subst.
  destruct rest as [|b rest]; [exact Ha|].
  change (join_with "," (a :: b :: rest))
    with (a +:+ "," +:+ join_with "," (b :: rest)).
  rewrite !free_of_append, Ha, Hsep, (IH Hrest). reflexivity.
Qed.

Lemma split_rows_text (lines : list string) :
  Forall (fun l => free_of LF l = true) lines ->
  split_on LF (rows_text lines) = (lines ++ [""])%list.
Proof.
  induction 1 as [|l rest Hl Hrest IH]; [reflexivity|].
  change (rows_text (l :: rest)) with (l +:+ String LF (rows_text rest)).
  rewrite (split_on_cons _ _ _ Hl), IH. reflexivity.
Qed.

Lemma text_lines_rows_text (lines : list string) :
  Forall (fun l => free_of LF l = true) lines ->
  text_lines (rows_text lines) = lines.
Proof.
  intros H. unfold text_lines. rewrite (split_rows_text _ H).
  destruct (lines ++ [""])%list eqn:E; [now destruct lines|].
  rewrite <- E. apply removelast_last.
Qed.

Lemma rows_done_plain (qperf_data iperf_data : buckets) (sections : list string) :
  Forall (fun cells => length cells = 4%nat
                       /\ Forall (fun c => plain c = true) cells)
    (rows_done qperf_data iperf_data sections).
Proof.
  induction sections as [|section rest IH]; simpl; [constructor|].
  destruct (row_cells qperf_data iperf_data section) as [cells|e] eqn:Hc;
    [|constructor].
  constructor; [|exact IH]. now apply row_cells_plain in Hc.
Qed.

(** [print_rows] prints the completed rows, and ends well exactly when
    every section is completed. *)
Lemma print_rows_done (qperf_data iperf_data : buckets) (sections : list string) :
  fst (print_rows qperf_data iperf_data sections)
  = zip_with (fun section cells => Printed (table_row section cells))
      sections (rows_done qperf_data iperf_data sections)
  /\ (snd (print_rows qperf_data iperf_data sections) = Ok tt <->
      length (rows_done qperf_data iperf_data sections) = length sections).
Proof.
  induction sections as [|section rest [IH1 IH2]]; simpl.
  - split; [reflexivity|]. split; reflexivity.
  - destruct (row_cells qperf_data iperf_data section) as [cells|e]; simpl.
    + destruct (print_rows qperf_data iperf_data rest) as [pr r]. simpl in *.
      split; [now rewrite IH1|]. rewrite IH2. split; [congruence|now intros [= ->]].
    + split; [reflexivity|]. split; discriminate.
Qed.

(** With every call of [f.write] returning, [write_rows] hands over the
    completed rows, line by line, and ends as [print_rows] does. *)
Lemma write_rows_done (fs : filesystem) (path : string)
    (qperf_data iperf_data : buckets) :
  (forall written chunk, file_write fs path written chunk = Ok tt) ->
  forall (sections : list string) (written : string),
    write_rows fs path written qperf_data iperf_data sections
    = (written
       +:+ rows_text (zip_with (fun section cells => join_with "," (section :: cells))
                        sections (rows_done qperf_data iperf_data sections)),
       snd (print_rows qperf_data iperf_data sections)).
Proof.
  intros Hw. induction sections as [|section rest IH]; intros written;
    cbn [write_rows rows_done print_rows zip_with rows_text].
  - now rewrite append_nil_r.
  - destruct (row_cells qperf_data iperf_data section) as [cells|e];
      [|now rewrite append_nil_r].
    rewrite Hw, IH. cbn [zip_with rows_text].
    destruct (print_rows qperf_data iperf_data rest) as [pr r]. cbn [snd].
    unfold csv_row. now rewrite !append_assoc.
Qed.


Lemma read_back_rows (sections : list string) :
  Forall (fun s => plain s = true) sections ->
  forall rows : list (list string),
    Forall (fun cells => length cells = 4%nat
                         /\ Forall (fun c => plain c = true) cells) rows ->
    Forall (fun l => free_of LF l = true)
      (zip_with (fun section cells => join_with "," (section :: cells))
         sections rows)
    /\ map (split_on COMMA)
         (zip_with (fun section cells => join_with "," (section :: cells))
            sections rows)
       = zip_with (fun section cells => section :: cells) sections rows.
Proof.
  induction 1 as [|section rest Hs Hrest IH]; intros rows Hrows;
    cbn [zip_with map].
  - split; [constructor|reflexivity].
  - destruct rows as [|cells rows]; cbn [zip_with map];
      [split; [constructor|reflexivity]|].
    inversion Hrows as [|? ? [_ Hcells] Hmore]; subst.
    destruct (IH rows Hmore) as [Hfree Hsplit]. split.
    + constructor; [|exact Hfree].
      apply free_of_join; [reflexivity|].
      constructor; [now apply plain_free_of|].
      eapply Forall_impl; [exact Hcells|].
      intros c Hc. now apply plain_free_of.
    + f_equal; [|exact Hsplit].
      apply split_join; [discriminate|].
      constructor; [now apply plain_free_of|].
      eapply Forall_impl; [exact Hcells|].
      intros c Hc. now apply plain_free_of.
Qed.

(** *** Reading the printed rows *)

Lemma lstrip_spaces (n : nat) (s : string) : lstrip (spaces n +:+ s) = lstrip s.
Proof. induction n as [|n IH]; [reflexivity|exact IH]. Qed.

Lemma rstrip_all_spaces (n : nat) : rstrip (spaces n) = "".
Proof. induction n as [|n IH]; [reflexivity|]. cbn [spaces rstrip]. now rewrite IH. Qed.

Lemma rstrip_spaces (s : string) (n : nat) : rstrip (s +:+ spaces n) = rstrip s.
Proof.
  induction s as [|c s IH]; [apply rstrip_all_spaces|].
  change (String c s +:+ spaces n) with (String c (s +:+ spaces n)).
  cbn [rstrip]. now rewrite IH.
Qed.

Lemma strip_lead (n : nat) (s : string) : strip (spaces n +:+ s) = strip s.
Proof. unfold strip. now rewrite lstrip_spaces. Qed.

Lemma strip_trail (s : string) (n : nat) : strip (s +:+ spaces n) = strip s.
Proof.
  unfold strip. induction s as [|c s IH].
  - change ("" +:+ spaces n) with (spaces n).
    rewrite <- (append_nil_r (spaces n)). now rewrite lstrip_spaces.
  - change (String c s +:+ spaces n) with (String c (s +:+ spaces n)).
    cbn [lstrip]. destruct (Ascii.eqb c " "); [exact IH|].
    change (String c (s +:+ spaces n)) with (String c s +:+ spaces n).
    apply rstrip_spaces.
Qed.

Lemma append_not_empty (a b : string) : b <> "" -> a +:+ b <> "".
Proof. destruct a; [auto|discriminate]. Qed.

Lemma rstrip_append_keep (a b : string) :
  rstrip b = b -> b <> "" -> rstrip (a +:+ b) = a +:+ b.
Proof.
  intros Hb Hne. induction a as [|c a IH]; [exact Hb|].
  change (String c a +:+ b) with (String c (a +:+ b)).
  cbn [rstrip]. rewrite IH.
  destruct (a +:+ b) eqn:E; [|reflexivity].
  now apply append_not_empty in E.
Qed.

Lemma rstrip_solid (s : string) : solid s = true -> s <> "" -> rstrip s = s.
Proof.
  induction s as [|c s IH]; [contradiction|].
  unfold solid. cbn [all_chars rstrip]. intros H _.
  apply andb_true_iff in H as [Hc Hs].
  destruct s as [|c' s'].
  - cbn [rstrip]. unfold solid_char in Hc.
    apply andb_true_iff in Hc as [Hc _]. apply negb_true_iff in Hc.
    now rewrite Hc.
  - rewrite (IH Hs) by discriminate. reflexivity.
Qed.

Lemma solid_free_bar (s : string) : solid s = true -> free_of "|" s = true.
Proof.
  induction s as [|c s IH]; [reflexivity|].
  unfold solid. cbn [all_chars free_of]. intros H.
  apply andb_true_iff in H as [Hc Hs]. rewrite (IH Hs), andb_true_r.
  unfold solid_char in Hc. now apply andb_true_iff in Hc as [_ Hc].
Qed.

Lemma solid_zeros (n : nat) : solid (zeros n) = true.
Proof. induction n as [|n IH]; [reflexivity|]. exact IH. Qed.

Lemma solid_uint (u : Decimal.uint) : solid (NilEmpty.string_of_uint u) = true.
Proof. induction u as [|u IH|u IH|u IH|u IH|u IH|u IH|u IH|u IH|u IH|u IH]; [reflexivity|exact IH..]. Qed.

Lemma solid_str_int (z : Z) : solid (str_int z) = true.
Proof.
  unfold str_int, NilZero.string_of_uint.
  destruct (N.to_uint (Z.to_N z)); [reflexivity|apply solid_uint..].
Qed.

Lemma str_int_not_empty (z : Z) : str_int z <> "".
Proof.
  unfold str_int, NilZero.string_of_uint.
  destruct (N.to_uint (Z.to_N z)); discriminate.
Qed.

Lemma solid_append (a b : string) :
  solid a = true -> solid b = true -> solid (a +:+ b) = true.
Proof. unfold solid. intros Ha Hb. now rewrite all_chars_append, Ha, Hb. Qed.

Lemma solid_cons (c : ascii) (s : string) :
  solid_char c = true -> solid s = true -> solid (String c s) = true.
Proof. unfold solid. simpl. intros -> ->. reflexivity. Qed.

Lemma solid_str_exp (e : Z) : solid (str_exp e) = true.
Proof.
  unfold str_exp. apply solid_append; [destruct (e <? 0); reflexivity|].
  apply solid_append; [destruct (Z.abs e <? 10); reflexivity|].
  apply solid_str_int.
Qed.

Lemma solid_layout_repr (ds : string) (decpt : Z) :
  solid ds = true -> solid (layout_repr ds decpt) = true.
Proof.
  intros Hds. unfold layout_repr.
  destruct ((decpt <=? -4) || (16 <? decpt)).
  - destruct ds as [|c rest]; [reflexivity|].
    unfold solid in Hds. simpl in Hds. apply andb_true_iff in Hds as [Hc Hrest].
    apply solid_append.
    + apply solid_cons; [exact Hc|].
      destruct (String.length rest =? 0)%nat; [reflexivity|].
      apply solid_append; [reflexivity|exact Hrest].
    + apply solid_append; [reflexivity|apply solid_str_exp].
  - destruct (decpt <=? 0).
    + apply solid_append; [reflexivity|].
      apply solid_append; [apply solid_zeros|exact Hds].
    + destruct (Z.of_nat (String.length ds) <=? decpt).
      * apply solid_append; [exact Hds|].
        apply solid_append; [apply solid_zeros|reflexivity].
      * apply solid_append; [now apply all_chars_substring|].
        apply solid_append; [reflexivity|now apply all_chars_substring].
Qed.

Lemma layout_repr_not_empty (ds : string) (decpt : Z) :
  ds <> "" -> layout_repr ds decpt <> "".
Proof.
  intros Hds. unfold layout_repr.
  destruct ((decpt <=? -4) || (16 <? decpt)).
  - destruct ds as [|c rest]; [contradiction|discriminate].
  - destruct (decpt <=? 0); [discriminate|].
    destruct (Z.of_nat (String.length ds) <=? decpt).
    + destruct ds; [contradiction|discriminate].
    + apply append_not_empty. discriminate.
Qed.

(** The text of a float is not empty and has neither a space nor a bar. *)
Lemma solid_py_repr (x : float) : solid (py_repr x) = true /\ py_repr x <> "".
Proof.
  unfold py_repr. destruct (Prim2SF x) as [s|s| |s m e].
  - destruct s; (split; [reflexivity|discriminate]).
  - destruct s; (split; [reflexivity|discriminate]).
  - split; [reflexivity|discriminate].
  - destruct (if 0 <=? e then (Z.pos m * 2 ^ e, 1) else (Z.pos m, 2 ^ (- e)))
      as [vn vd].
    destruct (shortest_from 17 (abs x) vn vd (decpt_of vn vd) 1) as [c n].
    destruct (if c =? 10 ^ n then (1, decpt_of vn vd + 1) else (c, decpt_of vn vd))
      as [c' decpt']. split.
    + apply solid_append; [destruct s; reflexivity|].
      apply solid_layout_repr, solid_str_int.
    + apply append_not_empty, layout_repr_not_empty, str_int_not_empty.
Qed.

Lemma reads_whole_calc_stats (values : list float) (text : string) :
  calc_stats values = Ok text -> reads_whole text.
Proof.
  unfold calc_stats. destruct values as [|x values].
  - intros [= <-]. split; reflexivity.
  - destruct (float_of_int (Z.of_nat (length (x :: values)))) as [n|e];
      [|discriminate].
    cbn [mbind res_bind].
    destruct (if (1 <? length (x :: values))%nat then stdev (x :: values)
              else Ok 0%float) as [sd|e]; [|discriminate].
    intros [= <-].
    destruct (solid_py_repr (py_round2 (py_sum (x :: values) / n))) as [H1 N1].
    destruct (solid_py_repr (py_round2 sd)) as [H2 N2].
    set (r1 := py_repr (py_round2 (py_sum (x :: values) / n))) in *.
    set (r2 := py_repr (py_round2 sd)) in *.
    change (String " " (String "177"%char (String " " r2)))
      with (" " +:+ PLUS_MINUS +:+ " " +:+ r2).
    split.
    + unfold strip.
      assert (Hl : lstrip (r1 +:+ " " +:+ PLUS_MINUS +:+ " " +:+ r2)
                   = r1 +:+ " " +:+ PLUS_MINUS +:+ " " +:+ r2).
      { destruct r1 as [|c r1']; [contradiction|].
        change (String c r1' +:+ ?t) with (String c (r1' +:+ t)).
        cbn [lstrip]. unfold solid in H1. cbn [all_chars] in H1.
        apply andb_true_iff in H1 as [Hc _]. unfold solid_char in Hc.
        apply andb_true_iff in Hc as [Hc _]. apply negb_true_iff in Hc.
        now rewrite Hc. }
      rewrite Hl.
      repeat (apply rstrip_append_keep; [|repeat apply append_not_empty; exact N2]).
      now apply rstrip_solid.
    + rewrite !free_of_append, (solid_free_bar _ H1), (solid_free_bar _ H2).
      reflexivity.
Qed.

Lemma row_cells_read (qperf_data iperf_data : buckets) (section : string)
    (cells : list string) :
  row_cells qperf_data iperf_data section = Ok cells ->
  Forall reads_whole cells.
Proof.
  unfold row_cells.
  repeat match goal with
         | |- context [bucket ?d ?i ?s ≫= calc_stats] =>
             let H := fresh "H" in
             destruct (bucket d i s) as [?|?]; cbn [mbind res_bind];
             [|discriminate];
             match goal with
             | |- context [calc_stats ?l] =>
                 destruct (calc_stats l) eqn:H; [|discriminate];
                 apply reads_whole_calc_stats in H
             end
         end.
  intros [= <-]. repeat (constructor; [assumption|]). constructor.
Qed.

Lemma rows_done_read (qperf_data iperf_data : buckets) (sections : list string) :
  Forall (Forall reads_whole) (rows_done qperf_data iperf_data sections).
Proof.
  induction sections as [|section rest IH]; simpl; [constructor|].
  destruct (row_cells qperf_data iperf_data section) as [cells|e] eqn:Hc;
    [|constructor].
  constructor; [|exact IH]. now apply row_cells_read in Hc.
Qed.

Lemma free_of_spaces (sep : ascii) (n : nat) :
  Ascii.eqb " " sep = false -> free_of sep (spaces n) = true.
Proof.
  intros H. induction n as [|n IH]; [reflexivity|].
  cbn [spaces free_of]. now rewrite H, IH.
Qed.

(** Splitting a row at the bars and stripping the parts undoes the joining
    with [" | "], whatever spaces pad the fields. *)
Lemma strip_split_join (fields : list string) :
  fields <> [] ->
  Forall (fun f => free_of "|" f = true) fields ->
  forall k : nat,
    map strip (split_on "|" (spaces k +:+ join_with " | " fields))
    = map strip fields.
Proof.
  induction fields as [|a rest IH]; [contradiction|].
  intros _ Hall k. inversion Hall as [|? ? Ha Hrest]; subst.
  destruct rest as [|b rest].
  - cbn [join_with]. rewrite split_on_free
      by (rewrite free_of_append, free_of_spaces, Ha; reflexivity).
    cbn [map]. now rewrite strip_lead.
  - change (join_with " | " (a :: b :: rest))
      with (a +:+ String " " (String "|" (spaces 1 +:+ join_with " | " (b :: rest)))).
    replace (spaces k +:+ a
             +:+ String " " (String "|" (spaces 1 +:+ join_with " | " (b :: rest))))
      with ((spaces k +:+ a +:+ spaces 1)
            +:+ String "|" (spaces 1 +:+ join_with " | " (b :: rest)))
      by (now rewrite !append_assoc).
    rewrite split_on_cons
      by (rewrite !free_of_append, !free_of_spaces, Ha; reflexivity).
    cbn [map]. rewrite IH by (discriminate || exact Hrest).
    f_equal. rewrite strip_lead. apply strip_trail.
Qed.

Lemma table_cells_table_row (section : string) (cells : list string) :
  reads_whole section -> Forall reads_whole cells ->
  table_cells (table_row section cells) = section :: cells.
Proof.
  intros [Hs Hf] Hcells. unfold table_cells, table_row.
  change (join_with " | " ?l) with (spaces 0 +:+ join_with " | " l).
  rewrite strip_split_join; [|discriminate|].
  - cbn [map]. unfold ljust. rewrite strip_trail, Hs. f_equal.
    induction Hcells as [|c cells [Hc _] _ IH]; [reflexivity|].
    cbn [map]. unfold center at 1. rewrite strip_lead, strip_trail, Hc.
    now rewrite IH.
  - constructor.
    + unfold ljust. rewrite free_of_append, Hf, free_of_spaces; reflexivity.
    + induction Hcells as [|c cells [_ Hc] _ IH]; [constructor|].
      cbn [map]. constructor; [|exact IH].
      unfold center. rewrite !free_of_append, Hc, !free_of_spaces; reflexivity.
Qed.

Lemma read_table_rows (sections : list string) :
  Forall reads_whole sections ->
  forall rows : list (list string),
    Forall (Forall reads_whole) rows ->
    map table_cells (zip_with table_row sections rows)
    = zip_with (fun section cells => section :: cells) sections rows.
Proof.
  induction 1 as [|section rest Hs Hrest IH]; intros rows Hrows;
    cbn [zip_with map]; [reflexivity|].
  destruct rows as [|cells rows]; cbn [zip_with map]; [reflexivity|].
  inversion Hrows as [|? ? Hcells Hmore]; subst.
  now rewrite table_cells_table_row, IH.
Qed.

Lemma section_labels_read : Forall reads_whole section_labels.
Proof. repeat constructor. Qed.

Lemma printed_rows (sections : list string) (rows : list (list string)) :
  zip_with (fun section cells => Printed (table_row section cells)) sections rows
  = map Printed (zip_with table_row sections rows).
Proof.
  revert rows. induction sections as [|s rest IH]; intros [|c rows];
    cbn [zip_with map]; try reflexivity.
  now rewrite IH.
Qed.

Lemma rows_done_cells_take (qperf_data iperf_data : buckets)
    (sections : list string) :
  Forall2 (fun section cells =>
             row_cells qperf_data iperf_data section = Ok cells)
    (take (length (rows_done qperf_data iperf_data sections)) sections)
    (rows_done qperf_data iperf_data sections).
Proof.
  induction sections as [|section rest IH]; cbn [rows_done]; [constructor|].
  destruct (row_cells qperf_data iperf_data section) as [cells|e] eqn:Hc;
    [|constructor].
  cbn [length take]. constructor; [exact Hc|exact IH].
Qed.

(** C9: when the CSV file can be opened, written and closed, what
    [save_to_csv] has written reads back, row by row in the order of the
    time sections, as the section label followed by the four texts that a
    reader finds between the bars of the row [print_table] printed for
    that section on the same data, which are the four texts of
    [calc_stats] for the section; when [print_table] ends well these are
    the rows of all four sections. *)
Theorem csv_round_trip (fs : filesystem) (HOME : string)
    (qperf_data iperf_data : buckets) :
  open_write fs (output_file HOME) = Ok tt ->
  (forall written chunk : string,
      file_write fs (output_file HOME) written chunk = Ok tt) ->
  (forall written : string, file_close fs (output_file HOME) written = Ok tt) ->
  exists (rows : list (list string)) (lines : list string) (text : string),
    Forall (fun cells => length cells = 4%nat) rows
    /\ Forall2 (fun section cells =>
                  row_cells qperf_data iperf_data section = Ok cells)
         (take (length rows) section_labels) rows
    /\ fst (print_table qperf_data iperf_data)
       = (TABLE_HEAD ++ map Printed lines)%list
    /\ map table_cells lines
       = zip_with (fun section cells => section :: cells) section_labels rows
    /\ snd (save_to_csv fs HOME qperf_data iperf_data) = Some text
    /\ csv_parse text = split_on COMMA CSV_HEADER :: map table_cells lines
    /\ (snd (print_table qperf_data iperf_data) = Ok tt -> length rows = 4%nat).
Proof.
  intros Hopen Hwrite Hclose.
  pose proof (rows_done_plain qperf_data iperf_data section_labels) as Hall.
  destruct (print_rows_done qperf_data iperf_data section_labels) as [Hpr Hok].
  pose proof (write_rows_done fs (output_file HOME) qperf_data iperf_data
                Hwrite section_labels (CSV_HEADER +:+ NEWLINE)) as Hwr.
  assert (Hlabels : Forall (fun s => plain s = true) section_labels)
    by (repeat constructor).
  destruct (read_back_rows _ Hlabels _ Hall) as [Hfree Hsplit].
  pose proof (read_table_rows _ section_labels_read _
                (rows_done_read qperf_data iperf_data section_labels)) as Hread.
  exists (rows_done qperf_data iperf_data section_labels).
  exists (zip_with table_row section_labels
            (rows_done qperf_data iperf_data section_labels)).
  exists (CSV_HEADER +:+ NEWLINE
          +:+ rows_text
                (zip_with (fun section cells => join_with "," (section :: cells))
                   section_labels
                   (rows_done qperf_data iperf_data section_labels))).
  split.
  { eapply Forall_impl; [exact Hall|]. now intros cells [H _]. }
  split; [apply rows_done_cells_take|].
  split.
  { unfold print_table.
    destruct (print_rows qperf_data iperf_data section_labels) as [pr r].
    cbn [fst] in *. subst pr. now rewrite printed_rows. }
  split; [exact Hread|]. split.
  { unfold save_to_csv, write_csv. rewrite Hopen, Hwrite, Hwr, Hclose.
    rewrite append_assoc.
    destruct (snd (print_rows qperf_data iperf_data section_labels));
      reflexivity. }
  split.
  - rewrite Hread. unfold csv_parse.
    match goal with
    | |- context [text_lines (CSV_HEADER +:+ NEWLINE +:+ rows_text ?l)] =>
        change (CSV_HEADER +:+ NEWLINE +:+ rows_text l)
          with (rows_text (CSV_HEADER :: l))
    end.
    rewrite text_lines_rows_text by (constructor; [reflexivity|exact Hfree]).
    cbn [map]. now rewrite Hsplit.
  - unfold print_table.
    destruct (print_rows qperf_data iperf_data section_labels) as [pr r].
    exact (proj1 Hok).
Qed.

Lemma csv_round_trip_witness :
  exists (rows : list (list string)) (lines : list string) (text : string),
    Forall (fun cells => length cells = 4%nat) rows
    /\ Forall2 (fun section cells =>
                  row_cells buckets_50_60 buckets_100 section = Ok cells)
         (take (length rows) section_labels) rows
    /\ fst (print_table buckets_50_60 buckets_100)
       = (TABLE_HEAD ++ map Printed lines)%list
    /\ map table_cells lines
       = zip_with (fun section cells => section :: cells) section_labels rows
    /\ snd (save_to_csv iperf_fs_100 "/home/u" buckets_50_60 buckets_100)
       = Some text
    /\ csv_parse text = split_on COMMA CSV_HEADER :: map table_cells lines
    /\ (snd (print_table buckets_50_60 buckets_100) = Ok tt -> length rows = 4%nat).
Proof.
  apply (csv_round_trip iperf_fs_100 "/home/u" buckets_50_60 buckets_100);
    reflexivity.
Defined.

(** ** The buckets, exactly *)

Lemma bucket_append_lookup (data data' : buckets) (i s i' s' : string) (t : float) :
  bucket_append data i s t = Ok data' ->
  bucket data' i' s'
  = if String.eqb i' i && String.eqb s' s
    then values ← bucket data i' s'; Ok (values ++ [t])%list
    else bucket data i' s'.
Proof.
  unfold bucket_append, bucket.
  destruct (data !! i) as [m|] eqn:Hm; [|discriminate].
  destruct (m !! s) as [l|] eqn:Hl; [|discriminate].
  intros [= <-].
  destruct (String.eqb_spec i' i) as [->|Hi]; cbn [andb].
  - rewrite lookup_insert_eq, Hm.
    destruct (String.eqb_spec s' s) as [->|Hs].
    + rewrite lookup_insert_eq, Hl. reflexivity.
    + rewrite lookup_insert_ne by congruence. reflexivity.
  - rewrite lookup_insert_ne by congruence. reflexivity.
Qed.

Lemma add_samples_lookup (start_time : datetime) (i : string)
    (throughputs : list sample) :
  forall data data' : buckets,
    add_samples start_time i data throughputs = Ok data' ->
    forall i' s' : string,
      bucket data' i' s'
      = if String.eqb i' i
        then values ← bucket data i' s';
             Ok (values ++ selected start_time s' throughputs)%list
        else bucket data i' s'.
Proof.
  induction throughputs as [|[sec t] rest IH]; intros data data'.
  - intros [= <-] i' s'. cbn [selected].
    destruct (String.eqb i' i); [|reflexivity].
    destruct (bucket data i' s'); cbn [mbind res_bind]; [|reflexivity].
    now rewrite app_nil_r.
  - cbn [add_samples selected fst snd]. unfold add_sample, section_of.
    cbn [fst snd].
    destruct (seconds_since_midnight start_time sec) as [x|e];
      cbn [mbind res_bind]; [|discriminate].
    destruct (get_time_section x) as [section|].
    + destruct (bucket_append data i section t) as [d1|e] eqn:Hd1;
        cbn [mbind res_bind]; [|discriminate].
      intros Hrest i' s'. rewrite (IH _ _ Hrest i' s').
      rewrite !(bucket_append_lookup _ _ _ _ _ _ _ Hd1).
      destruct (String.eqb_spec i' i) as [->|Hi]; cbn [andb]; [|reflexivity].
      rewrite (String.eqb_sym s' section).
      destruct (String.eqb section s'); [|reflexivity].
      destruct (bucket data i s'); cbn [mbind res_bind]; [|reflexivity].
      now rewrite <- app_assoc.
    + intros Hrest i' s'. apply (IH _ _ Hrest).
Qed.

Lemma process_entries_lookup (parse_func : string -> run * list out)
    (directory file_pattern : string) (filenames : list string) :
  forall (data data' : buckets) (printed : list out),
    process_entries parse_func directory file_pattern data filenames
    = (printed, Ok data') ->
    printed = concat (map (printed_for parse_func directory file_pattern) filenames)
    /\ forall i s : string,
         bucket data' i s
         = values ← bucket data i s;
           Ok (values ++ concat (map (contribution parse_func directory
                                        file_pattern i s) filenames))%list.
Proof.
  induction filenames as [|filename rest IH]; intros data data' printed.
  - intros [= <- <-]. split; [reflexivity|]. intros i s. cbn [map concat].
    destruct (bucket data i s); cbn [mbind res_bind]; [|reflexivity].
    now rewrite app_nil_r.
  - cbn [process_entries map concat].
    destruct (process_entry parse_func directory file_pattern data filename)
      as [pr [d1|e]] eqn:Hentry; [|discriminate].
    destruct (process_entries parse_func directory file_pattern d1 rest)
      as [pr' r] eqn:Hrest.
    intros [= <- ->]. destruct (IH _ _ _ Hrest) as [-> Hb].
    unfold process_entry in Hentry. unfold contribution.
    replace (printed_for parse_func directory file_pattern filename)
      with (if contains file_pattern filename
            then snd (parse_func (path_join directory filename)) else [])
      by reflexivity.
    destruct (contains file_pattern filename).
    + destruct (parse_func (path_join directory filename))
        as [[[t|] throughputs] pr0]; cbn [snd].
      * destruct (interface_of filename) as [i0|].
        -- injection Hentry as -> Hadd. split; [reflexivity|].
           intros i s. rewrite Hb, (add_samples_lookup _ _ _ _ _ Hadd).
           rewrite (String.eqb_sym i0 i).
           destruct (String.eqb i i0); [|reflexivity].
           destruct (bucket data i s); cbn [mbind res_bind]; [|reflexivity].
           now rewrite <- app_assoc.
        -- injection Hentry as -> ->. split; [reflexivity|].
           intros i s. now rewrite Hb.
      * injection Hentry as -> ->. split; [reflexivity|].
        intros i s. now rewrite Hb.
    + injection Hentry as <- ->. split; [reflexivity|].
      intros i s. now rewrite Hb.
Qed.

Lemma keyed_empty : keyed empty_buckets.
Proof.
  intros i s Hi Hs. exists [].
  cbn in Hi, Hs.
  repeat (destruct Hi as [<-|Hi]);
    repeat (destruct Hs as [<-|Hs]); try contradiction; reflexivity.
Qed.

(** X4: when [process_files] returns, each of the eight buckets holds, in
    the order of the directory listing and then of the samples, exactly the
    throughputs of the samples that fall in its section, taken from the
    parsed entries whose name has the pattern and names the interface; and
    what was printed is what the parser printed for the entries with the
    pattern, in the order of the listing. *)
Theorem process_files_buckets (fs : filesystem) (directory : string)
    (parse_func : string -> run * list out) (file_pattern : string)
    (printed : list out) (data : buckets) :
  process_files fs directory parse_func file_pattern = (printed, Ok data) ->
  exists filenames : list string,
    listdir fs directory = Ok filenames
    /\ printed
       = concat (map (printed_for parse_func directory file_pattern) filenames)
    /\ forall i s : string,
         In i ["wlan0"; "wlan1"] -> In s section_labels ->
         bucket data i s
         = Ok (concat (map (contribution parse_func directory file_pattern i s)
                         filenames)).
Proof.
  unfold process_files.
  destruct (listdir fs directory) as [filenames|e]; [|discriminate].
  intros H. exists filenames. split; [reflexivity|].
  destruct (process_entries_lookup _ _ _ _ _ _ _ H) as [Hp Hb].
  split; [exact Hp|]. intros i s Hi Hs. rewrite Hb.
  destruct (keyed_empty i s Hi Hs) as [values Hv].
  pose proof (bucket_empty _ _ _ Hv) as ->. rewrite Hv. reflexivity.
Qed.

Lemma process_iperf_100 :
  process_files iperf_fs_100 "/r" (parse_iperf_file (fun _ => None) iperf_fs_100)
    "iperf3_throughput" = ([], Ok buckets_100).
Proof. vm_compute. reflexivity. Qed.

Lemma process_files_buckets_witness :
  exists filenames : list string,
    listdir iperf_fs_100 "/r" = Ok filenames
    /\ [] = concat (map (printed_for (parse_iperf_file (fun _ => None) iperf_fs_100)
                           "/r" "iperf3_throughput") filenames)
    /\ forall i s : string,
         In i ["wlan0"; "wlan1"] -> In s section_labels ->
         bucket buckets_100 i s
         = Ok (concat (map (contribution (parse_iperf_file (fun _ => None) iperf_fs_100)
                              "/r" "iperf3_throughput" i s) filenames)).
Proof.
  exact (process_files_buckets iperf_fs_100 "/r"
           (parse_iperf_file (fun _ => None) iperf_fs_100) "iperf3_throughput"
           [] buckets_100 process_iperf_100).
Defined.

(** ** What [process_files] can raise *)

Lemma interface_of_known (filename i : string) :
  interface_of filename = Some i -> In i ["wlan0"; "wlan1"].
Proof.
  unfold interface_of.
  destruct (contains "wlan0" filename); [intros [= <-]; left; reflexivity|].
  destruct (contains "wlan1" filename); [intros [= <-]; right; left; reflexivity|].
  discriminate.
Qed.

Lemma get_time_section_label (x : pynum) (label : string) :
  get_time_section x = Some label -> In label section_labels.
Proof.
  intros H. apply scan_sections_Some in H as (a & b & Hin & _).
  unfold section_labels.
  exact (in_map (fun s => fst (fst s)) TIME_SECTIONS (label, a, b) Hin).
Qed.

Lemma bucket_append_keyed (data : buckets) (i s : string) (t : float) :
  keyed data -> In i ["wlan0"; "wlan1"] -> In s section_labels ->
  exists data' : buckets, bucket_append data i s t = Ok data' /\ keyed data'.
Proof.
  intros Hk Hi Hs. destruct (Hk i s Hi Hs) as [values Hv].
  assert (Happ : exists data', bucket_append data i s t = Ok data').
  { unfold bucket in Hv. unfold bucket_append.
    destruct (data !! i) as [m|]; [|discriminate].
    destruct (m !! s) as [l|]; [|discriminate]. eauto. }
  destruct Happ as [data' Happ]. exists data'. split; [exact Happ|].
  intros i' s' Hi' Hs'. rewrite (bucket_append_lookup _ _ _ _ _ _ _ Happ).
  destruct (Hk i' s' Hi' Hs') as [values' ->].
  destruct (String.eqb i' i && String.eqb s' s); cbn [mbind res_bind]; eauto.
Qed.

Lemma py_add_int_raises (a : Z) (v : pyval) (e : exn) :
  py_add_int a v = Raise e -> e = TypeError \/ e = OverflowError.
Proof.
  destruct v; simpl; try (intros [= <-]; auto); try discriminate.
  unfold float_of_int. destruct (is_infinity (ratio_to_float a 1)); simpl;
    [intros [= <-]; auto|discriminate].
Qed.

Lemma add_samples_keyed (start_time : datetime) (i : string)
    (throughputs : list sample) :
  In i ["wlan0"; "wlan1"] ->
  forall data : buckets,
    keyed data ->
    match add_samples start_time i data throughputs with
    | Ok data' => keyed data'
    | Raise e => e = TypeError \/ e = OverflowError
    end.
Proof.
  intros Hi. induction throughputs as [|[sec t] rest IH]; intros data Hk.
  - exact Hk.
  - cbn [add_samples]. unfold add_sample. cbn [fst snd].
    unfold seconds_since_midnight.
    destruct (py_add_int _ sec) as [x|e] eqn:Hx; cbn [mbind res_bind];
      [|now apply py_add_int_raises in Hx].
    destruct (get_time_section x) as [section|] eqn:Hsec.
    + destruct (bucket_append_keyed data i section t Hk Hi
                  (get_time_section_label _ _ Hsec)) as (d1 & -> & Hk1).
      cbn [mbind res_bind]. apply IH, Hk1.
    + cbn [mbind res_bind]. apply IH, Hk.
Qed.

Lemma process_entries_keyed (parse_func : string -> run * list out)
    (directory file_pattern : string) (filenames : list string) :
  forall data : buckets,
    keyed data ->
    match snd (process_entries parse_func directory file_pattern data filenames) with
    | Ok data' => keyed data'
    | Raise e => e = TypeError \/ e = OverflowError
    end.
Proof.
  induction filenames as [|filename rest IH]; intros data Hk; [exact Hk|].
  cbn [process_entries]. unfold process_entry.
  destruct (contains file_pattern filename).
  - destruct (parse_func (path_join directory filename))
      as [[[t|] throughputs] pr].
    + destruct (interface_of filename) as [i|] eqn:Hi.
      * pose proof (add_samples_keyed t i throughputs
                      (interface_of_known _ _ Hi) data Hk) as Hadd.
        destruct (add_samples t i data throughputs) as [d1|e]; [|exact Hadd].
        specialize (IH d1 Hadd).
        destruct (process_entries parse_func directory file_pattern d1 rest).
        exact IH.
      * specialize (IH data Hk).
        destruct (process_entries parse_func directory file_pattern data rest).
        exact IH.
    + specialize (IH data Hk).
      destruct (process_entries parse_func directory file_pattern data rest).
      exact IH.
  - specialize (IH data Hk).
    destruct (process_entries parse_func directory file_pattern data rest).
    exact IH.
Qed.

(** X5: [process_files] never ends in a [KeyError] or any exception of its
    own making: when it raises, either [os.listdir] raised that exception,
    or the addition of a sample's offset to the start second raised a
    [TypeError] or an [OverflowError]. *)
Theorem process_files_raises (fs : filesystem) (directory : string)
    (parse_func : string -> run * list out) (file_pattern : string)
    (printed : list out) (e : exn) :
  process_files fs directory parse_func file_pattern = (printed, Raise e) ->
  listdir fs directory = Raise e \/ e = TypeError \/ e = OverflowError.
Proof.
  unfold process_files.
  destruct (listdir fs directory) as [filenames|e0]; [|intros [= _ <-]; auto].
  intros H. right.
  pose proof (process_entries_keyed parse_func directory file_pattern filenames
                empty_buckets keyed_empty) as Hk.
  rewrite H in Hk. exact Hk.
Qed.

Lemma process_files_raises_witness :
  listdir iperf_fs_100 "/elsewhere" = Raise OSError
  \/ OSError = TypeError \/ OSError = OverflowError.
Proof.
  exact (process_files_raises iperf_fs_100 "/elsewhere"
           (parse_iperf_file (fun _ => None) iperf_fs_100) "iperf3_throughput"
           [] OSError eq_refl).
Defined.

(** ** The samples of a qperf file *)

Lemma digits_value_nonneg (s : string) :
  forall acc : Z, 0 <= acc -> all_digits s = true -> 0 <= digits_value acc s.
Proof.
  induction s as [|c s IH]; intros acc Hacc; simpl; [auto|].
  intros H. apply andb_true_iff in H as [Hc Hs]. apply IH; [|exact Hs].
  unfold is_digit in Hc. unfold digit_value.
  apply andb_true_iff in Hc as [Hlo _]. lia.
Qed.

Lemma py_int_nonneg (token : string) (z : Z) : py_int token = Ok z -> 0 <= z.
Proof.
  unfold py_int. destruct (all_digits token) eqn:Hd; simpl; [|discriminate].
  destruct ((String.length token =? 0)%nat || (4300 <? String.length token)%nat);
    [discriminate|].
  intros [= <-]. now apply digits_value_nonneg.
Qed.

Lemma scan_lines_offsets (lines : list string) :
  forall samples : list sample,
    scan_lines lines = Ok samples ->
    Forall (fun s => exists z : Z, 0 <= z /\ fst s = PyInt z) samples.
Proof.
  induction lines as [|line rest IH]; simpl; intros samples.
  - intros [= <-]. constructor.
  - destruct (re_search line) as [[g1 g2]|]; [|apply IH].
    destruct (py_int g1) as [z|e] eqn:Hz; cbn [mbind res_bind]; [|discriminate].
    destruct (py_float g2) as [f|e]; cbn [mbind res_bind]; [|discriminate].
    destruct (scan_lines rest) as [more|e]; cbn [mbind res_bind]; [|discriminate].
    intros [= <-]. constructor; [|now apply IH].
    exists z. split; [now apply py_int_nonneg in Hz|reflexivity].
Qed.

Lemma parse_qperf_file_int_offsets (fs : filesystem) (filepath : string)
    (start_time : datetime) (throughputs : list sample) (printed : list out) :
  parse_qperf_file fs filepath = ((Some start_time, throughputs), printed) ->
  Forall (fun s => exists z : Z, 0 <= z /\ fst s = PyInt z) throughputs.
Proof.
  unfold parse_qperf_file, parse_qperf_body.
  destruct (filename_stamp ".txt" (basename filepath)) as [t|e];
    cbn [mbind res_bind guarded]; [|discriminate].
  destruct (read_lines fs filepath) as [lines|e];
    cbn [mbind res_bind guarded]; [|discriminate].
  destruct (scan_lines lines) as [samples|e] eqn:Hs;
    cbn [mbind res_bind guarded]; [|discriminate].
  intros [= _ <- _]. now apply scan_lines_offsets in Hs.
Qed.

(** X6: every sample that [parse_qperf_file] returns has an offset that is a
    Python [int] and is not negative. *)
Theorem qperf_offsets_are_naturals (fs : filesystem) (filepath : string)
    (start_time : datetime) (throughputs : list sample) (printed : list out) :
  parse_qperf_file fs filepath = ((Some start_time, throughputs), printed) ->
  forall (sec : pyval) (throughput : float),
    In (sec, throughput) throughputs ->
    exists z : Z, 0 <= z /\ sec = PyInt z.
Proof.
  intros H sec throughput Hin.
  apply parse_qperf_file_int_offsets in H.
  rewrite List.Forall_forall in H. exact (H _ Hin).
Qed.

Lemma qperf_offsets_are_naturals_witness :
  exists z : Z, 0 <= z /\ PyInt 5 = PyInt z.
Proof.
  apply (qperf_offsets_are_naturals qperf_fs_50_60
           (path_join (QPERF_DIR "/home/u") QPERF_NAME)
           (mk_datetime 2025 6 5 0 0 0)
           [(PyInt 0, 50%float); (PyInt 5, 60%float)] []
           ltac:(vm_compute; reflexivity) (PyInt 5) 60%float).
  right. left. reflexivity.
Defined.

Lemma add_samples_int_offsets (start_time : datetime) (i : string)
    (throughputs : list sample) :
  In i ["wlan0"; "wlan1"] ->
  Forall (fun s => exists z : Z, 0 <= z /\ fst s = PyInt z) throughputs ->
  forall data : buckets,
    keyed data ->
    exists data' : buckets,
      add_samples start_time i data throughputs = Ok data' /\ keyed data'.
Proof.
  intros Hi Hall. induction Hall as [|[sec t] rest (z & _ & Hz) Hrest IH];
    intros data Hk.
  - exists data. split; [reflexivity|exact Hk].
  - cbn [fst] in Hz. subst sec.
    cbn [add_samples]. unfold add_sample. cbn [fst snd].
    unfold seconds_since_midnight. cbn [py_add_int mbind res_bind].
    destruct (get_time_section _) as [section|] eqn:Hsec.
    + destruct (bucket_append_keyed data i section t Hk Hi
                  (get_time_section_label _ _ Hsec)) as (d1 & -> & Hk1).
      cbn [mbind res_bind]. apply IH, Hk1.
    + cbn [mbind res_bind]. apply IH, Hk.
Qed.

Lemma process_entries_qperf (fs : filesystem) (directory file_pattern : string)
    (filenames : list string) :
  forall data : buckets,
    keyed data ->
    exists (printed : list out) (data' : buckets),
      process_entries (parse_qperf_file fs) directory file_pattern data filenames
      = (printed, Ok data')
      /\ keyed data'.
Proof.
  induction filenames as [|filename rest IH]; intros data Hk.
  - exists [], data. split; [reflexivity|exact Hk].
  - cbn [process_entries]. unfold process_entry.
    destruct (contains file_pattern filename).
    + destruct (parse_qperf_file fs (path_join directory filename))
        as [[[t|] throughputs] pr] eqn:Hparse.
      * destruct (interface_of filename) as [i|] eqn:Hi.
        -- destruct (add_samples_int_offsets t i throughputs
                       (interface_of_known _ _ Hi)
                       (parse_qperf_file_int_offsets _ _ _ _ _ Hparse) data Hk)
             as (d1 & -> & Hk1).
           destruct (IH d1 Hk1) as (pr' & d2 & -> & Hk2). eauto.
        -- destruct (IH data Hk) as (pr' & d2 & -> & Hk2). eauto.
      * destruct (IH data Hk) as (pr' & d2 & -> & Hk2). eauto.
    + destruct (IH data Hk) as (pr' & d2 & -> & Hk2). eauto.
Qed.



(** ** The JSON time stamp changes nothing *)

Lemma iperf_start_time_any (g1 g2 : string -> option datetime) (data : pyval)
    (filename : string) :
  iperf_start_time g1 data filename = iperf_start_time g2 data filename.
Proof.
  unfold iperf_start_time.
  destruct (json_time_field data) as [v|e]; cbn [mbind res_bind]; [|reflexivity].
  destruct v as [| | | |s| |]; try reflexivity.
  assert (H : forall g,
             try_except
               (json_time ← py_strptime_gmt g (PyStr s);
                filename_time ← filename_stamp ".json" filename; Ok filename_time)
               key_or_value_error (filename_stamp ".json" filename)
             = filename_stamp ".json" filename).
  { intros g. unfold py_strptime_gmt. destruct (g s); cbn; [|reflexivity].
    destruct (filename_stamp ".json" filename) as [t|e]; cbn; [reflexivity|].
    destruct (key_or_value_error e); reflexivity. }
  now rewrite !H.
Qed.

Lemma parse_iperf_file_any (g1 g2 : string -> option datetime)
    (fs : filesystem) (filepath : string) :
  parse_iperf_file g1 fs filepath = parse_iperf_file g2 fs filepath.
Proof.
  unfold parse_iperf_file, parse_iperf_body.
  destruct (json_load fs filepath) as [data|e]; cbn [mbind res_bind];
    [|reflexivity].
  now rewrite (iperf_start_time_any g1 g2).
Qed.

Lemma process_entries_ext (f1 f2 : string -> run * list out)
    (directory file_pattern : string) (filenames : list string) :
  (forall path, f1 path = f2 path) ->
  forall data : buckets,
    process_entries f1 directory file_pattern data filenames
    = process_entries f2 directory file_pattern data filenames.
Proof.
  intros Hext. induction filenames as [|filename rest IH]; intros data;
    [reflexivity|].
  cbn [process_entries]. unfold process_entry. rewrite Hext.
  destruct (contains file_pattern filename); [|now rewrite IH].
  destruct (f2 (path_join directory filename)) as [[[t|] throughputs] pr];
    [|now rewrite IH].
  destruct (interface_of filename) as [i|]; [|now rewrite IH].
  destruct (add_samples t i data throughputs); [now rewrite IH|reflexivity].
Qed.

(** X8: what [parse_iperf_file] returns and prints does not depend on how
    the JSON time stamp text reads, nor on the locale that would read it:
    any two ways of parsing that text give the same result, for one file
    and for the whole program. *)
Theorem iperf_json_time_is_ignored (g1 g2 : string -> option datetime)
    (fs : filesystem) :
  (forall filepath : string,
      parse_iperf_file g1 fs filepath = parse_iperf_file g2 fs filepath)
  /\ (forall HOME : string, main g1 fs HOME = main g2 fs HOME).
Proof.
  split; [intros; apply parse_iperf_file_any|].
  intros HOME. unfold main, process_files.
  destruct (listdir fs (QPERF_DIR HOME)) as [qnames|e]; [|reflexivity].
  destruct (process_entries (parse_qperf_file fs) (QPERF_DIR HOME)
              "qperf_throughput_rtt" empty_buckets qnames) as [p1 [qd|e]];
    [|reflexivity].
  destruct (listdir fs (IPERF_DIR HOME)) as [inames|e]; [|reflexivity].
  now rewrite (process_entries_ext (parse_iperf_file g1 fs)
                 (parse_iperf_file g2 fs) _ _ _ (parse_iperf_file_any g1 g2 fs)).
Qed.

(** ** The section of a number, exactly *)

Lemma bounds_bool (a b : Z) (x : pynum) (q : Q) :
  num_exact x = Some q ->
  int_le_num a x = Qle_bool (inject_Z a) q
  /\ num_le_int x b = Qle_bool q (inject_Z b).
Proof.
  destruct x as [z|f]; simpl.
  - intros [= <-]. unfold Qle_bool. simpl. now rewrite !Z.mul_1_r.
  - unfold exact_ratio. destruct (float_exact f) as [|neg|neg q']; try discriminate.
    intros [= <-]. split; reflexivity.
Qed.

Lemma no_exact_no_section (x : pynum) :
  num_exact x = None -> get_time_section x = None.
Proof.
  intros H. destruct (get_time_section x) as [label|] eqn:E; [|reflexivity].
  apply get_time_section_sound in E as (q & Hq & _). congruence.
Qed.

Lemma in_section_found (x : pynum) (q : Q) (label : string) :
  num_exact x = Some q -> in_section label q -> get_time_section x = Some label.
Proof.
  intros Hq (a & b & Hin & Ha & Hb).
  unfold get_time_section, TIME_SECTIONS. cbn [scan_sections].
  repeat match goal with
         | |- context [int_le_num ?lo x && num_le_int x ?hi] =>
             destruct (bounds_bool lo hi x q Hq) as [-> ->]
         end.
  apply Qle_bool_iff in Ha. apply Qle_bool_iff in Hb.
  unfold Qle_bool in *. cbn [Qnum Qden inject_Z] in *.
  rewrite ?Z.mul_1_l in *.
  apply Z.leb_le in Ha. apply Z.leb_le in Hb.
  cbn in Hin.
  repeat (destruct Hin as [Hin|Hin];
          [injection Hin as <- <- <-;
           repeat match goal with
                  | |- context [(?u <=? ?v)] =>
                      destruct (Z.leb_spec u v); cbn [andb]; try lia
                  end; reflexivity|]).
  destruct Hin.
Qed.

(** X9: [get_time_section] gives the label of a section exactly when the
    number, an [int] or a finite [float] taken at its exact value, lies in
    the closed interval of that section; a NaN or an infinity has no
    section, and no number has two. *)
Theorem get_time_section_exact (x : pynum) (label : string) :
  (get_time_section x = Some label <->
   exists q : Q, num_exact x = Some q /\ in_section label q)
  /\ (num_exact x = None -> get_time_section x = None).
Proof.
  split; [split|apply no_exact_no_section].
  - intros H. apply get_time_section_sound in H as (q & Hq & Hin & _). eauto.
  - intros (q & Hq & Hin). eapply in_section_found; eassumption.
Qed.

(** ** The lines of a qperf file *)

Lemma drop_prefix_split (p s r : string) :
  drop_prefix p s = Some r -> s = p +:+ r.
Proof.
  revert s. induction p as [|a p IH]; intros s; simpl.
  - now intros [= ->].
  - destruct s as [|b s]; [discriminate|].
    destruct (Ascii.eqb_spec a b) as [->|]; [|discriminate].
    intros H. now rewrite (IH _ H).
Qed.

Lemma drop_prefix_append (p r : string) : drop_prefix p (p +:+ r) = Some r.
Proof.
  induction p as [|a p IH]; simpl; [reflexivity|].
  now rewrite Ascii.eqb_refl.
Qed.

Lemma take_while_split (p : ascii -> bool) (s a b : string) :
  take_while p s = (a, b) -> s = a +:+ b /\ all_chars p a = true.
Proof.
  revert a b. induction s as [|c s IH]; intros a b; simpl.
  - intros [= <- <-]. split; reflexivity.
  - destruct (p c) eqn:Hc.
    + destruct (take_while p s) as [a' b']. intros [= <- <-].
      destruct (IH a' b' eq_refl) as [-> Ha]. split; [reflexivity|].
      simpl. now rewrite Hc, Ha.
    + intros [= <- <-]. split; reflexivity.
Qed.

(** [b] is empty or starts with a character outside the class [p]. *)
Lemma take_while_stop (p : ascii -> bool) (a b : string) :
  all_chars p a = true ->
  match b with
  | EmptyString => True
  | String c _ => p c = false
  end ->
  take_while p (a +:+ b) = (a, b).
Proof.
  intros Ha Hb. induction a as [|c a IH]; simpl.
  - destruct b as [|c b]; [reflexivity|]. simpl. now rewrite Hb.
  - simpl in Ha. apply andb_true_iff in Ha as [Hc Ha].
    now rewrite Hc, (IH Ha).
Qed.

Lemma all_digits_chars (s : string) : all_chars is_digit s = all_digits s.
Proof. induction s as [|c s IH]; simpl; [reflexivity|]. now rewrite IH. Qed.

Lemma match_here_sound (line g1 g2 : string) :
  match_here line = Some (g1, g2) ->
  exists post : string,
    line = "second " +:+ g1 +:+ ": " +:+ g2 +:+ " mbit/s" +:+ post
    /\ String.length g1 <> 0%nat /\ all_digits g1 = true
    /\ String.length g2 <> 0%nat /\ all_chars is_digit_or_dot g2 = true.
Proof.
  unfold match_here.
  destruct (drop_prefix "second " line) as [r1|] eqn:H1; [|discriminate].
  cbn [mbind option_bind].
  destruct (take_while is_digit r1) as [a r2] eqn:H2.
  destruct (String.length a =? 0)%nat eqn:Ha; [discriminate|].
  destruct (drop_prefix ": " r2) as [r3|] eqn:H3; [|discriminate].
  cbn [mbind option_bind].
  destruct (take_while is_digit_or_dot r3) as [b r4] eqn:H4.
  destruct (String.length b =? 0)%nat eqn:Hb; [discriminate|].
  destruct (drop_prefix " mbit/s" r4) as [r5|] eqn:H5; [|discriminate].
  cbn [mbind option_bind]. intros [= <- <-].
  apply drop_prefix_split in H1, H3, H5.
  apply take_while_split in H2 as [H2 Hda], H4 as [H4 Hdb].
  exists r5. subst. rewrite <- all_digits_chars.
  apply Nat.eqb_neq in Ha, Hb. auto.
Qed.

Lemma match_here_found (g1 g2 post : string) :
  String.length g1 <> 0%nat -> all_digits g1 = true ->
  String.length g2 <> 0%nat -> all_chars is_digit_or_dot g2 = true ->
  match_here ("second " +:+ g1 +:+ ": " +:+ g2 +:+ " mbit/s" +:+ post)
  = Some (g1, g2).
Proof.
  intros Hn1 Hd1 Hn2 Hd2. unfold match_here.
  rewrite drop_prefix_append. cbn [mbind option_bind].
  rewrite (take_while_stop is_digit g1 (": " +:+ g2 +:+ " mbit/s" +:+ post))
    by (rewrite ?all_digits_chars; auto; reflexivity).
  apply Nat.eqb_neq in Hn1. rewrite Hn1.
  rewrite drop_prefix_append. cbn [mbind option_bind].
  rewrite (take_while_stop is_digit_or_dot g2 (" mbit/s" +:+ post))
    by (auto; reflexivity).
  apply Nat.eqb_neq in Hn2. rewrite Hn2.
  rewrite drop_prefix_append. reflexivity.
Qed.

(** X10: the two groups that the line pattern yields.  Whatever [re_search]
    returns for a line comes from an occurrence of
    [second <digits>: <digits and dots> mbit/s] in it, both groups not
    empty; and a line that starts with such an occurrence yields exactly
    its two groups, whatever follows. *)
Theorem re_search_groups :
  (forall line g1 g2 : string,
      re_search line = Some (g1, g2) ->
      exists pre post : string,
        line = pre +:+ "second " +:+ g1 +:+ ": " +:+ g2 +:+ " mbit/s" +:+ post
        /\ String.length g1 <> 0%nat /\ all_digits g1 = true
        /\ String.length g2 <> 0%nat /\ all_chars is_digit_or_dot g2 = true)
  /\ (forall g1 g2 post : string,
         String.length g1 <> 0%nat -> all_digits g1 = true ->
         String.length g2 <> 0%nat -> all_chars is_digit_or_dot g2 = true ->
         re_search ("second " +:+ g1 +:+ ": " +:+ g2 +:+ " mbit/s" +:+ post)
         = Some (g1, g2)).
Proof.
  split.
  - induction line as [|c line IH]; intros g1 g2 H.
    + vm_compute in H. discriminate.
    + cbn [re_search] in H.
      destruct (match_here (String c line)) as [[a b]|] eqn:Hm.
      * injection H as -> ->.
        apply match_here_sound in Hm as (post & -> & Hrest).
        exists "", post. split; [reflexivity|exact Hrest].
      * destruct (IH _ _ H) as (pre & post & -> & Hrest).
        exists (String c pre), post. split; [reflexivity|exact Hrest].
  - intros g1 g2 post Hn1 Hd1 Hn2 Hd2.
    pose proof (match_here_found g1 g2 post Hn1 Hd1 Hn2 Hd2) as Hm.
    remember ("second " +:+ g1 +:+ ": " +:+ g2 +:+ " mbit/s" +:+ post) as line.
    destruct line; cbn [re_search]; now rewrite Hm.
Qed.

(** X11: the samples of a qperf text are one per line that has a match, in
    the order of the lines, each with the two tokens converted; lines
    without a match add nothing; and the loop ends well as soon as both
    tokens of every line with a match convert. *)
Theorem scan_lines_samples (lines : list string) :
  (forall samples : list sample,
      scan_lines lines = Ok samples ->
      Forall2 sample_of_line (List.filter has_match lines) samples)
  /\ ((forall line g1 g2 : string,
          In line lines -> re_search line = Some (g1, g2) ->
          (exists z, py_int g1 = Ok z) /\ (exists f, py_float g2 = Ok f)) ->
      exists samples : list sample, scan_lines lines = Ok samples).
Proof.
  split.
  - induction lines as [|line rest IH]; intros samples; cbn [scan_lines List.filter].
    + intros [= <-]. constructor.
    + unfold has_match at 1.
      destruct (re_search line) as [[g1 g2]|] eqn:Hm; [|apply IH].
      destruct (py_int g1) as [z|e] eqn:Hz; cbn [mbind res_bind]; [|discriminate].
      destruct (py_float g2) as [f|e] eqn:Hf; cbn [mbind res_bind]; [|discriminate].
      destruct (scan_lines rest) as [more|e]; cbn [mbind res_bind]; [|discriminate].
      intros [= <-]. constructor; [|now apply IH].
      exists g1, g2, z, f. auto.
  - induction lines as [|line rest IH]; intros Hall; cbn [scan_lines].
    + eauto.
    + destruct IH as [more Hmore].
      { intros l g1 g2 Hin. apply Hall. now right. }
      rewrite Hmore.
      destruct (re_search line) as [[g1 g2]|] eqn:Hm; [|eauto].
      destruct (Hall line g1 g2 (or_introl eq_refl) Hm) as [[z ->] [f ->]].
      cbn [mbind res_bind]. eauto.
Qed.

(** ** The two reports agree *)

(** The loop of [save_to_csv] computes the cells that [print_rows]
    computes: it cannot end well where [print_rows] does not. *)
Lemma write_rows_end (fs : filesystem) (path : string)
    (qperf_data iperf_data : buckets) (sections : list string) :
  forall written : string,
    snd (write_rows fs path written qperf_data iperf_data sections) = Ok tt ->
    snd (print_rows qperf_data iperf_data sections) = Ok tt.
Proof.
  induction sections as [|section rest IH]; intros written;
    cbn [write_rows print_rows]; [reflexivity|].
  destruct (row_cells qperf_data iperf_data section) as [cells|e];
    [|discriminate].
  destruct (file_write fs path written (csv_row section cells)) as [u|e];
    [|discriminate].
  intros H. apply IH in H.
  destruct (print_rows qperf_data iperf_data rest). exact H.
Qed.

(** X12: on the same data, [save_to_csv] reports success only if
    [print_table] ends well; and when the CSV file can be opened, written
    and closed, it reports success exactly when [print_table] ends well and
    otherwise prints the exception that stops [print_table]. *)
Theorem save_to_csv_follows_print_table (fs : filesystem) (HOME : string)
    (qperf_data iperf_data : buckets) :
  (fst (save_to_csv fs HOME qperf_data iperf_data)
   = [Printed (NEWLINE +:+ "Results saved to " +:+ output_file HOME)] ->
   snd (print_table qperf_data iperf_data) = Ok tt)
  /\ (open_write fs (output_file HOME) = Ok tt ->
      (forall written chunk : string,
          file_write fs (output_file HOME) written chunk = Ok tt) ->
      (forall written : string,
          file_close fs (output_file HOME) written = Ok tt) ->
      fst (save_to_csv fs HOME qperf_data iperf_data)
      = match snd (print_table qperf_data iperf_data) with
        | Ok _ => [Printed (NEWLINE +:+ "Results saved to " +:+ output_file HOME)]
        | Raise e => [PrintedError "Error saving to CSV: " e]
        end).
Proof.
  assert (Hsnd : snd (print_table qperf_data iperf_data)
                 = snd (print_rows qperf_data iperf_data section_labels)).
  { unfold print_table.
    now destruct (print_rows qperf_data iperf_data section_labels). }
  rewrite Hsnd. split.
  - unfold save_to_csv, write_csv.
    destruct (open_write fs (output_file HOME)) as [u|e]; [|discriminate].
    destruct (file_write fs (output_file HOME) "" (CSV_HEADER +:+ NEWLINE))
      as [u'|e].
    + pose proof (write_rows_end fs (output_file HOME) qperf_data iperf_data
                    section_labels (CSV_HEADER +:+ NEWLINE)) as Hend.
      destruct (write_rows fs (output_file HOME) (CSV_HEADER +:+ NEWLINE)
                  qperf_data iperf_data section_labels) as [written [[]|e]];
        [intros _; now apply Hend|].
      destruct (file_close fs (output_file HOME) written); discriminate.
    + destruct (file_close fs (output_file HOME) ""); discriminate.
  - intros Hopen Hwrite Hclose. unfold save_to_csv, write_csv.
    rewrite Hopen, Hwrite, (write_rows_done fs _ _ _ Hwrite), Hclose.
    destruct (snd (print_rows qperf_data iperf_data section_labels));
      reflexivity.
Qed.

Lemma save_to_csv_follows_print_table_witness :
  fst (save_to_csv iperf_fs_100 "/home/u" buckets_50_60 buckets_100)
  = match snd (print_table buckets_50_60 buckets_100) with
    | Ok _ => [Printed (NEWLINE +:+ "Results saved to " +:+ output_file "/home/u")]
    | Raise e => [PrintedError "Error saving to CSV: " e]
    end.
Proof.
  apply (proj2 (save_to_csv_follows_print_table iperf_fs_100 "/home/u"
                  buckets_50_60 buckets_100)); reflexivity.
Defined.

(** ** Time stamps written and read back *)

(** Splits the goal into the cases [n = 0], ..., [n = bound - 1]. *)
Tactic Notation "cases_below" constr(n) integer(bound) tactic3(tac) :=
  let k := fresh "k" in
  let Hk := fresh "Hk" in
  assert (Hk : exists k : nat, n = Z.of_nat k) by (exists (Z.to_nat n); lia);
  destruct Hk as [k ->];
  do bound (destruct k as [|k]; [first [tac | exfalso; lia]|]);
  exfalso; lia.

Lemma two_chars_two_digits (n : Z) (r : string) :
  0 <= n <= 99 ->
  two_chars is_digit is_digit (two_digits n +:+ r) = [(n, r)].
Proof. intros H. cases_below n 100 reflexivity. Qed.

Lemma all_digits_two_digits (n : Z) :
  0 <= n <= 99 -> all_digits (two_digits n) = true.
Proof. intros H. cases_below n 100 reflexivity. Qed.

Lemma dir_m_head (n : Z) (r : string) :
  1 <= n <= 12 -> exists tl, dir_m (two_digits n +:+ r) = (n, r) :: tl.
Proof. intros H. cases_below n 13 (eexists; reflexivity). Qed.

Lemma dir_d_head (n : Z) (r : string) :
  1 <= n <= 31 -> exists tl, dir_d (two_digits n +:+ r) = (n, r) :: tl.
Proof. intros H. cases_below n 32 (eexists; reflexivity). Qed.

Lemma dir_H_head (n : Z) (r : string) :
  0 <= n <= 23 -> exists tl, dir_H (two_digits n +:+ r) = (n, r) :: tl.
Proof. intros H. cases_below n 24 (eexists; reflexivity). Qed.

Lemma dir_M_head (n : Z) (r : string) :
  0 <= n <= 59 -> exists tl, dir_M (two_digits n +:+ r) = (n, r) :: tl.
Proof. intros H. cases_below n 60 (eexists; reflexivity). Qed.

Lemma dir_S_head (n : Z) (r : string) :
  0 <= n <= 59 -> exists tl, dir_S (two_digits n +:+ r) = (n, r) :: tl.
Proof. intros H. cases_below n 60 (eexists; reflexivity). Qed.

Lemma dir_Y_head (y : Z) (r : string) :
  1 <= y <= 9999 ->
  dir_Y (two_digits (y / 100) +:+ two_digits (y mod 100) +:+ r) = [(y, r)].
Proof.
  intros H. unfold dir_Y.
  rewrite two_chars_two_digits by (split; [apply Z.div_pos; lia|
    apply Z.lt_succ_r, Z.div_lt_upper_bound; lia]).
  cbn [mbind list_bind mret list_ret app].
  change (list_bind ?f ?l) with (mbind f l).
  rewrite two_chars_two_digits by (pose proof (Z.mod_pos_bound y 100); lia).
  cbn [mbind list_bind mret list_ret app].
  f_equal. f_equal. pose proof (Z.div_mod y 100). lia.
Qed.

(** The first alternative that matches decides what follows. *)
Lemma bind_head {A B : Type} (f : A -> list B) (l tl : list A) (x : A)
    (y : B) :
  l = x :: tl -> (exists tl', f x = y :: tl') ->
  exists tl'', l ≫= f = y :: tl''.
Proof.
  intros -> [tl' Hf]. cbn [mbind list_bind]. rewrite Hf.
  eexists. reflexivity.
Qed.

Lemma match_stamp_head (t : datetime) :
  valid_stamp t -> exists tl, match_stamp (stamp_text t) = (t, "") :: tl.
Proof.
  destruct t as [y mo d h mi sec].
  unfold valid_stamp, stamp_text, date_text, time_text, match_stamp.
  cbn [year month day hour minute second].
  intros (Hy & Hmo & Hd & Hh & Hmi & Hs).
  assert (Hd' : 1 <= d <= 31).
  { unfold days_in_month in Hd.
    destruct (mo =? 2), (is_leap y),
      ((mo =? 4) || (mo =? 6) || (mo =? 9) || (mo =? 11)); lia. }
  rewrite !append_assoc.
  destruct (dir_m_head mo
              (two_digits d +:+ "_" +:+ two_digits h +:+ two_digits mi
               +:+ two_digits sec +:+ "") (conj (proj1 Hmo) (proj2 Hmo)))
    as [tl1 H1].
  destruct (dir_d_head d
              ("_" +:+ two_digits h +:+ two_digits mi
               +:+ two_digits sec +:+ "") Hd') as [tl2 H2].
  destruct (dir_H_head h (two_digits mi +:+ two_digits sec +:+ "") Hh)
    as [tl3 H3].
  destruct (dir_M_head mi (two_digits sec +:+ "") Hmi) as [tl4 H4].
  destruct (dir_S_head sec "" Hs) as [tl5 H5].
  replace (two_digits sec) with (two_digits sec +:+ "")
    by apply append_nil_r.
  eapply bind_head; [apply dir_Y_head; exact Hy|cbv beta iota].
  eapply bind_head; [exact H1|cbv beta iota].
  eapply bind_head; [exact H2|cbv beta iota].
  eapply bind_head; [reflexivity|cbv beta iota].
  eapply bind_head; [exact H3|cbv beta iota].
  eapply bind_head; [exact H4|cbv beta iota].
  eapply bind_head; [exact H5|cbv beta iota].
  eexists. reflexivity.
Qed.

Lemma strptime_stamp_text (t : datetime) :
  valid_stamp t -> strptime_stamp (stamp_text t) = Ok t.
Proof.
  intros Hv. destruct (match_stamp_head t Hv) as [tl H].
  unfold strptime_stamp. rewrite H. cbn [String.length Nat.eqb negb].
  destruct Hv as (Hy & _ & Hd & _ & _ & Hs).
  replace (1 <=? year t) with true by (symmetry; apply Z.leb_le; lia).
  replace (day t <=? days_in_month (year t) (month t)) with true
    by (symmetry; apply Z.leb_le; lia).
  replace (second t <=? 59) with true by (symmetry; apply Z.leb_le; lia).
  reflexivity.
Qed.

Lemma split_on_append_sep (sep : ascii) (p r : string) :
  split_on sep (p +:+ String sep r) = (split_on sep p ++ split_on sep r)%list.
Proof.
  induction p as [|c p IH]; simpl.
  - now rewrite Ascii.eqb_refl.
  - rewrite IH. destruct (Ascii.eqb c sep); [reflexivity|].
    destruct (split_on sep p) eqn:E; [|reflexivity].
    now apply split_on_not_nil in E.
Qed.

Lemma index_from_end_last_two {A : Type} (l : list A) (a b : A) :
  index_from_end (l ++ [a; b]) 2 = Ok a
  /\ index_from_end (l ++ [a; b]) 1 = Ok b.
Proof.
  unfold index_from_end. rewrite rev_app_distr. split; reflexivity.
Qed.

Lemma all_digits_append (a b : string) :
  all_digits (a +:+ b) = all_digits a && all_digits b.
Proof.
  induction a as [|c a IH]; simpl; [reflexivity|].
  now rewrite IH, andb_assoc.
Qed.

Lemma all_digits_free (sep : ascii) (s : string) :
  is_digit sep = false -> all_digits s = true -> free_of sep s = true.
Proof.
  intros Hsep. induction s as [|c s IH]; simpl; [reflexivity|].
  intros H. apply andb_true_iff in H as [Hc Hs]. rewrite (IH Hs), andb_true_r.
  apply negb_true_iff. destruct (Ascii.eqb_spec c sep); [congruence|reflexivity].
Qed.

Lemma all_digits_date_text (t : datetime) :
  valid_stamp t -> all_digits (date_text t) = true.
Proof.
  intros (Hy & Hmo & Hd & _). unfold date_text.
  assert (Hd' : day t <= 31).
  { unfold days_in_month in Hd.
    destruct (month t =? 2), (is_leap (year t)),
      ((month t =? 4) || (month t =? 6) || (month t =? 9) || (month t =? 11));
      lia. }
  rewrite !all_digits_append, !all_digits_two_digits; try lia.
  - pose proof (Z.mod_pos_bound (year t) 100); lia.
  - split; [apply Z.div_pos; lia|].
    apply Z.lt_succ_r, Z.div_lt_upper_bound; lia.
Qed.

Lemma all_digits_time_text (t : datetime) :
  valid_stamp t -> all_digits (time_text t) = true.
Proof.
  intros (_ & _ & _ & Hh & Hmi & Hs). unfold time_text.
  rewrite !all_digits_append, !all_digits_two_digits; try lia.
Qed.

(** Removing an extension that starts with a dot leaves digits alone. *)
Lemma replace_from_digits (e s r : string) :
  all_digits s = true ->
  replace_from (String "." e) "" 0 (s +:+ r)
  = s +:+ replace_from (String "." e) "" 0 r.
Proof.
  induction s as [|c s IH]; [reflexivity|].
  intros H. cbn [all_digits] in H. apply andb_true_iff in H as [Hc Hs].
  change (String c s +:+ r) with (String c (s +:+ r)).
  cbn [replace_from drop_prefix].
  destruct (Ascii.eqb_spec "."%char c) as [<-|_]; [discriminate Hc|].
  rewrite (IH Hs). reflexivity.
Qed.

Lemma filename_stamp_text (e prefix : string) (t : datetime) :
  valid_stamp t ->
  free_of "_" e = true ->
  replace_from (String "." e) "" 0 (String "." e) = "" ->
  filename_stamp (String "." e)
    (prefix +:+ "_" +:+ stamp_text t +:+ String "." e)
  = Ok t.
Proof.
  intros Hv Hfree He. unfold filename_stamp.
  assert (Hsplit : split_on "_" (prefix +:+ "_" +:+ stamp_text t +:+ String "." e)
                   = (split_on "_" prefix
                      ++ [date_text t; time_text t +:+ String "." e])%list).
  { change ("_" +:+ ?x) with (String "_" x).
    rewrite split_on_append_sep. f_equal.
    unfold stamp_text. rewrite !append_assoc.
    change ("_" +:+ ?x) with (String "_" x).
    rewrite split_on_cons
      by (apply all_digits_free; [reflexivity|now apply all_digits_date_text]).
    f_equal. apply split_on_free. rewrite free_of_append.
    rewrite all_digits_free;
      [exact Hfree|reflexivity|now apply all_digits_time_text]. }
  rewrite Hsplit.
  destruct (index_from_end_last_two (split_on "_" prefix) (date_text t)
              (time_text t +:+ String "." e)) as [-> ->].
  cbn [mbind res_bind]. unfold str_replace.
  rewrite replace_from_digits by now apply all_digits_time_text.
  rewrite He, append_nil_r. now apply strptime_stamp_text.
Qed.

(** X13: a file name that ends in [_YYYYMMDD_HHMMSS] and the extension, for
    a date of the years 1 to 9999 and a time of day, gives back exactly that
    date and time, whatever precedes the time stamp (more underscores
    included); this holds for the [.txt] names of [parse_qperf_file] and
    the [.json] names of [parse_iperf_file]. *)
Theorem filename_stamp_round_trip (prefix : string) (t : datetime) :
  valid_stamp t ->
  filename_stamp ".txt" (prefix +:+ "_" +:+ stamp_text t +:+ ".txt") = Ok t
  /\ filename_stamp ".json" (prefix +:+ "_" +:+ stamp_text t +:+ ".json") = Ok t.
Proof.
  intros Hv. split.
  - exact (filename_stamp_text "txt" prefix t Hv eq_refl eq_refl).
  - exact (filename_stamp_text "json" prefix t Hv eq_refl eq_refl).
Qed.

Lemma filename_stamp_round_trip_witness :
  filename_stamp ".txt"
    ("wlan0_qperf_throughput_rtt" +:+ "_"
     +:+ stamp_text (mk_datetime 2025 6 5 19 38 15) +:+ ".txt")
  = Ok (mk_datetime 2025 6 5 19 38 15)
  /\ filename_stamp ".json"
       ("wlan0_qperf_throughput_rtt" +:+ "_"
        +:+ stamp_text (mk_datetime 2025 6 5 19 38 15) +:+ ".json")
     = Ok (mk_datetime 2025 6 5 19 38 15).
Proof.
  apply (filename_stamp_round_trip "wlan0_qperf_throughput_rtt"
           (mk_datetime 2025 6 5 19 38 15)).
  unfold valid_stamp. cbn. lia.
Defined.

(** ** What [main] can end in *)

Lemma int_truediv_raises (n d : Z) (e : exn) :
  int_truediv n d = Raise e -> e = OverflowError.
Proof.
  unfold int_truediv. destruct (is_infinity (ratio_to_float n d)); congruence.
Qed.

Lemma float_of_int_raises (z : Z) (e : exn) :
  float_of_int z = Raise e -> e = OverflowError.
Proof.
  unfold float_of_int. destruct (is_infinity (ratio_to_float z 1)); congruence.
Qed.

Lemma mapM_raises {A B : Type} (f : A -> res B) (l : list A) (e : exn) :
  mapM f l = Raise e -> exists a, In a l /\ f a = Raise e.
Proof.
  induction l as [|a l IH]; cbn [mapM]; [discriminate|].
  destruct (f a) as [b|e'] eqn:Ha; cbn [mbind res_bind].
  - destruct (mapM f l) as [bs|e'']; cbn [mbind res_bind]; [discriminate|].
    intros [= <-]. destruct (IH eq_refl) as (x & Hin & Hx).
    exists x. split; [now right|exact Hx].
  - intros [= <-]. exists a. split; [now left|exact Ha].
Qed.

Lemma stdev_raises (data : list float) (e : exn) :
  (1 <? length data)%nat = true ->
  stdev data = Raise e -> e = OverflowError \/ e = AttributeError.
Proof.
  intros Hlen. unfold stdev.
  replace (length data <? 2)%nat with false
    by (symmetry; apply Nat.ltb_ge; apply Nat.ltb_lt in Hlen; lia).
  destruct (mapM _ data) as [xs|e'] eqn:Hm.
  - unfold float_sqrt_of_frac.
    destruct (0 <=? _); intros H; apply int_truediv_raises in H; auto.
  - intros [= <-]. apply mapM_raises in Hm as (x & _ & Hx).
    destruct (exact_ratio x); [discriminate|]. injection Hx as <-. auto.
Qed.

Lemma calc_stats_raises (values : list float) (e : exn) :
  calc_stats values = Raise e -> e = OverflowError \/ e = AttributeError.
Proof.
  unfold calc_stats. destruct values as [|v values]; [discriminate|].
  destruct (float_of_int _) as [n|e'] eqn:Hn; cbn [mbind res_bind].
  - destruct (1 <? length (v :: values))%nat eqn:Hlen.
    + destruct (stdev (v :: values)) as [sd|e'] eqn:Hsd; cbn [mbind res_bind];
        [discriminate|].
      intros [= <-]. exact (stdev_raises _ _ Hlen Hsd).
    + discriminate.
  - intros [= <-]. left. exact (float_of_int_raises _ _ Hn).
Qed.

Lemma row_cells_raises (qperf_data iperf_data : buckets) (section : string)
    (e : exn) :
  keyed qperf_data -> keyed iperf_data -> In section section_labels ->
  row_cells qperf_data iperf_data section = Raise e ->
  e = OverflowError \/ e = AttributeError.
Proof.
  intros Hq Hi Hs. unfold row_cells.
  destruct (Hq "wlan0" section) as [v1 ->]; [now left|exact Hs|].
  destruct (Hq "wlan1" section) as [v2 ->]; [now right; left|exact Hs|].
  destruct (Hi "wlan0" section) as [v3 ->]; [now left|exact Hs|].
  destruct (Hi "wlan1" section) as [v4 ->]; [now right; left|exact Hs|].
  cbn [mbind res_bind].
  destruct (calc_stats v1) as [c1|e1] eqn:H1; cbn [mbind res_bind];
    [|intros [= <-]; exact (calc_stats_raises _ _ H1)].
  destruct (calc_stats v2) as [c2|e2] eqn:H2; cbn [mbind res_bind];
    [|intros [= <-]; exact (calc_stats_raises _ _ H2)].
  destruct (calc_stats v3) as [c3|e3] eqn:H3; cbn [mbind res_bind];
    [|intros [= <-]; exact (calc_stats_raises _ _ H3)].
  destruct (calc_stats v4) as [c4|e4] eqn:H4; cbn [mbind res_bind];
    [discriminate|intros [= <-]; exact (calc_stats_raises _ _ H4)].
Qed.

Lemma print_rows_raises (qperf_data iperf_data : buckets)
    (sections : list string) (e : exn) :
  keyed qperf_data -> keyed iperf_data ->
  (forall s, In s sections -> In s section_labels) ->
  snd (print_rows qperf_data iperf_data sections) = Raise e ->
  e = OverflowError \/ e = AttributeError.
Proof.
  intros Hq Hi. induction sections as [|section rest IH]; intros Hin;
    cbn [print_rows]; [discriminate|].
  destruct (row_cells qperf_data iperf_data section) as [cells|e'] eqn:Hc.
  - destruct (print_rows qperf_data iperf_data rest) as [pr r]. cbn [snd] in *.
    apply IH. intros s Hs. apply Hin. now right.
  - cbn [snd]. intros [= <-].
    apply (row_cells_raises _ _ section e' Hq Hi); [|exact Hc].
    apply Hin. now left.
Qed.

Lemma process_files_keyed (fs : filesystem) (directory : string)
    (parse_func : string -> run * list out) (file_pattern : string)
    (printed : list out) (data : buckets) :
  process_files fs directory parse_func file_pattern = (printed, Ok data) ->
  keyed data.
Proof.
  unfold process_files.
  destruct (listdir fs directory) as [filenames|e]; [|discriminate].
  intros H.
  pose proof (process_entries_keyed parse_func directory file_pattern filenames
                empty_buckets keyed_empty) as Hk.
  rewrite H in Hk. exact Hk.
Qed.

Lemma process_files_raises_cases (fs : filesystem) (directory : string)
    (parse_func : string -> run * list out) (file_pattern : string)
    (printed : list out) (e : exn) :
  process_files fs directory parse_func file_pattern = (printed, Raise e) ->
  listdir fs directory = Raise e \/ e = TypeError \/ e = OverflowError.
Proof.
  unfold process_files.
  destruct (listdir fs directory) as [filenames|e0]; [|intros [= _ <-]; auto].
  intros H. right.
  pose proof (process_entries_keyed parse_func directory file_pattern filenames
                empty_buckets keyed_empty) as Hk.
  rewrite H in Hk. exact Hk.
Qed.

Lemma process_qperf_raises (fs : filesystem) (directory file_pattern : string)
    (printed : list out) (e : exn) :
  process_files fs directory (parse_qperf_file fs) file_pattern
  = (printed, Raise e) ->
  listdir fs directory = Raise e.
Proof.
  unfold process_files.
  destruct (listdir fs directory) as [filenames|e']; [|congruence].
  destruct (process_entries_qperf fs directory file_pattern filenames
              empty_buckets keyed_empty) as (pr & data & -> & _).
  discriminate.
Qed.

(** X14: [main] catches nothing itself.  When it ends in an exception,
    either listing one of the two result directories raised it, or it is a
    [TypeError] or an [OverflowError] (from adding a sample's offset in the
    iperf3 pass, or from the statistics) or an [AttributeError] (from the
    statistics); in particular no [KeyError], [ValueError] or [IndexError]
    of the parsers and no failure of [save_to_csv] ever stops it
    ([print] itself is taken to succeed). *)
Theorem main_raises (strptime_gmt : string -> option datetime)
    (fs : filesystem) (HOME : string) (printed : list out) (e : exn) :
  main strptime_gmt fs HOME = (printed, Raise e) ->
  listdir fs (QPERF_DIR HOME) = Raise e
  \/ listdir fs (IPERF_DIR HOME) = Raise e
  \/ e = TypeError \/ e = OverflowError \/ e = AttributeError.
Proof.
  unfold main.
  destruct (process_files fs (QPERF_DIR HOME) (parse_qperf_file fs)
              "qperf_throughput_rtt") as [p1 [qperf_data|e1]] eqn:H1.
  - destruct (process_files fs (IPERF_DIR HOME)
                (parse_iperf_file strptime_gmt fs) "iperf3_throughput")
      as [p2 [iperf_data|e2]] eqn:H2.
    + destruct (print_table qperf_data iperf_data) as [p3 [u|e3]] eqn:H3.
      * destruct (save_to_csv fs HOME qperf_data iperf_data). discriminate.
      * intros [= _ <-]. right. right. right.
        unfold print_table in H3.
        pose proof (print_rows_raises qperf_data iperf_data section_labels e3
                      (process_files_keyed _ _ _ _ _ _ H1)
                      (process_files_keyed _ _ _ _ _ _ H2)
                      (fun s Hs => Hs)) as Hr.
        destruct (print_rows qperf_data iperf_data section_labels) as [pr r].
        injection H3 as _ ->. exact (Hr eq_refl).
    + intros [= _ <-].
      destruct (process_files_raises_cases _ _ _ _ _ _ H2) as [H|[H|H]]; auto.
  - intros [= _ <-]. left. exact (process_qperf_raises _ _ _ _ _ H1).
Qed.

Lemma main_raises_witness :
  listdir iperf_fs_100 (QPERF_DIR "/nowhere") = Raise OSError
  \/ listdir iperf_fs_100 (IPERF_DIR "/nowhere") = Raise OSError
  \/ OSError = TypeError \/ OSError = OverflowError \/ OSError = AttributeError.
Proof.
  exact (main_raises (fun _ => None) iperf_fs_100 "/nowhere" [] OSError eq_refl).
Defined.

(** ** What [main] prints when it returns *)


(** When the statistics of every section are there, the loop of
    [save_to_csv] comes down to the calls of [f.write]. *)
Lemma write_rows_chunks (fs : filesystem) (path : string)
    (qperf_data iperf_data : buckets) (sections : list string) :
  length (rows_done qperf_data iperf_data sections) = length sections ->
  forall written : string,
    write_rows fs path written qperf_data iperf_data sections
    = write_chunks fs path written
        (zip_with csv_row sections (rows_done qperf_data iperf_data sections)).
Proof.
  induction sections as [|section rest IH]; cbn [rows_done];
    [reflexivity|].
  cbn [write_rows].
  destruct (row_cells qperf_data iperf_data section) as [cells|e];
    [|discriminate].
  cbn [length zip_with write_chunks]. intros [= Hlen] written.
  destruct (file_write fs path written (csv_row section cells));
    [|reflexivity].
  now apply IH.
Qed.

Lemma save_to_csv_report (fs : filesystem) (HOME : string)
    (qperf_data iperf_data : buckets) :
  length (rows_done qperf_data iperf_data section_labels)
  = length section_labels ->
  fst (save_to_csv fs HOME qperf_data iperf_data)
  = [csv_report fs HOME (rows_done qperf_data iperf_data section_labels)].
Proof.
  intros Hlen. unfold save_to_csv, write_csv, csv_report, csv_io.
  destruct (open_write fs (output_file HOME)) as [u|e]; [|reflexivity].
  cbn [write_chunks].
  destruct (file_write fs (output_file HOME) "" (CSV_HEADER +:+ NEWLINE))
    as [u'|e].
  - rewrite (write_rows_chunks fs _ _ _ _ Hlen).
    change ("" +:+ (CSV_HEADER +:+ NEWLINE)) with (CSV_HEADER +:+ NEWLINE).
    destruct (write_chunks fs (output_file HOME) (CSV_HEADER +:+ NEWLINE) _)
      as [written r].
    destruct (file_close fs (output_file HOME) written); [|reflexivity].
    destruct r; reflexivity.
  - destruct (file_close fs (output_file HOME) ""); reflexivity.
Qed.



Lemma process_entries_no_match (parse_func : string -> run * list out)
    (directory file_pattern : string) (data : buckets)
    (filenames : list string) :
  Forall (fun filename => contains file_pattern filename = false) filenames ->
  process_entries parse_func directory file_pattern data filenames
  = ([], Ok data).
Proof.
  induction 1 as [|filename rest Hc _ IH]; [reflexivity|].
  cbn [process_entries]. unfold process_entry. now rewrite Hc, IH.
Qed.

(** X16: when the two result directories can be listed and hold no file
    whose name carries the pattern of its pass (two empty directories, for
    one), [main] prints the heading and the four rows of the table with
    [0.0 ± 0.0] centred in all sixteen cells, goes on to [save_to_csv],
    whose last line tells how the calls on the CSV file went, and
    returns. *)
Theorem main_without_results (strptime_gmt : string -> option datetime)
    (fs : filesystem) (HOME : string) (qperf_names iperf_names : list string) :
  listdir fs (QPERF_DIR HOME) = Ok qperf_names ->
  listdir fs (IPERF_DIR HOME) = Ok iperf_names ->
  Forall (fun filename => contains "qperf_throughput_rtt" filename = false)
    qperf_names ->
  Forall (fun filename => contains "iperf3_throughput" filename = false)
    iperf_names ->
  main strptime_gmt fs HOME
  = ((TABLE_HEAD ++ map Printed NO_VALUES_TABLE
      ++ [csv_report fs HOME (replicate 4 (replicate 4 NO_VALUES))])%list,
     Ok tt).
Proof.
  intros Hq Hi Fq Fi. unfold main, process_files.
  rewrite Hq, Hi, !process_entries_no_match by assumption.
  assert (Hpt : print_table empty_buckets empty_buckets
                = ((TABLE_HEAD ++ map Printed NO_VALUES_TABLE)%list, Ok tt))
    by (vm_compute; reflexivity).
  rewrite Hpt.
  assert (Hrows : rows_done empty_buckets empty_buckets section_labels
                  = replicate 4 (replicate 4 NO_VALUES))
    by (vm_compute; reflexivity).
  pose proof (save_to_csv_report fs HOME empty_buckets empty_buckets) as Hsv.
  rewrite Hrows in Hsv. specialize (Hsv eq_refl).
  destruct (save_to_csv fs HOME empty_buckets empty_buckets) as [p4 csv].
  cbn [fst] in Hsv. subst p4. cbn [app]. rewrite <- app_assoc. reflexivity.
Qed.

Lemma main_without_results_witness :
  main (fun _ => None) other_files "/home/u"
  = ((TABLE_HEAD ++ map Printed NO_VALUES_TABLE
      ++ [csv_report other_files "/home/u" (replicate 4 (replicate 4 NO_VALUES))])%list,
     Ok tt).
Proof.
  apply (main_without_results (fun _ => None) other_files "/home/u"
           ["README.md"] ["README.md"]);
    [reflexivity|reflexivity|repeat constructor|repeat constructor].
Defined.
